(** * The Vultr v2 reconciliation engine ([plugins/module_utils/vultr_v2.py])

    A shallow embedding of [AnsibleVultr] and of the retrying API client it
    is built on, together with the properties of the engine that the
    specification states.

    Python values are embedded as a small JSON universe, dictionaries as
    association lists in insertion order (the order in which [is_diff]
    walks the update body decides whether it answers or raises), the
    object's mutable [result] as a component of an explicit state, and
    [exit_json] / [fail_json] / exceptions as the ways a call can end
    without returning. *)

From Stdlib Require Import ZArith QArith Qminmax List String Ascii Bool Lia Lqa.
From Stdlib Require Import DecimalString.
Import ListNotations.

Local Open Scope Z_scope.
Local Open Scope string_scope.

(** ** Python values *)

(** The values that travel through the engine: module parameters and
    decoded JSON documents.  JSON numbers are integers here; floats only
    occur in the back-off delay, which is kept as an exact rational. *)
#[warnings="-register-all"]
Inductive value : Type :=
| VNone
| VBool (b : bool)
| VInt (z : Z)
| VStr (s : string)
| VList (l : list value)
| VDict (d : list (string * value)).

(** A Python dict with string keys, in insertion order. *)
Definition dict := list (string * value).

(** The exceptions the engine can run into. *)
Inductive exn : Type :=
| KeyError (key : string)
| TypeError
| AttributeError
| ValueError
| UnboundLocalError (name : string)
| RecursionError.

(** A Python expression either evaluates or raises. *)
Inductive checked (A : Type) : Type :=
| Ok (a : A)
| Err (e : exn).
Arguments Ok {A} a.
Arguments Err {A} e.

Module Py.

(** [d.get(k)] as an option; the first binding of a key is the live one. *)
Fixpoint lookup (k : string) (d : dict) : option value :=
  match d with
  | [] => None
  | (k', v) :: d' => if String.eqb k k' then Some v else lookup k d'
  end.

(** [d[k] = v]: an existing key keeps its place, a new key goes last. *)
Fixpoint setitem (d : dict) (k : string) (v : value) : dict :=
  match d with
  | [] => [(k, v)]
  | (k', v') :: d' =>
      if String.eqb k k' then (k, v) :: d' else (k', v') :: setitem d' k v
  end.

(** [d.update(e)] *)
Definition update (d e : dict) : dict :=
  fold_left (fun acc kv => setitem acc (fst kv) (snd kv)) e d.

(** [bool(v)] *)
Definition truthy (v : value) : bool :=
  match v with
  | VNone => false
  | VBool b => b
  | VInt z => negb (Z.eqb z 0)
  | VStr s => negb (String.eqb s "")
  | VList l => match l with [] => false | _ => true end
  | VDict d => match d with [] => false | _ => true end
  end.

(** [a == b].  [True == 1] holds in Python, dictionaries compare without
    regard to order, everything else compares structurally. *)
Fixpoint eq (a b : value) {struct a} : bool :=
  match a, b with
  | VNone, VNone => true
  | VBool x, VBool y => Bool.eqb x y
  | VBool x, VInt y => Z.eqb (Z.b2z x) y
  | VInt x, VBool y => Z.eqb x (Z.b2z y)
  | VInt x, VInt y => Z.eqb x y
  | VStr x, VStr y => String.eqb x y
  | VList xs, VList ys =>
      (fix eq_list (xs ys : list value) {struct xs} : bool :=
         match xs, ys with
         | [], [] => true
         | x :: xs', y :: ys' => eq x y && eq_list xs' ys'
         | _, _ => false
         end) xs ys
  | VDict d, VDict e =>
      Nat.eqb (List.length d) (List.length e) &&
      (fix eq_items (d : dict) {struct d} : bool :=
         match d with
         | [] => true
         | (k, v) :: d' =>
             match lookup k e with
             | Some w => eq v w
             | None => false
             end && eq_items d'
         end) d
  | _, _ => false
  end.

(** Is [sub] a substring of [s]? *)
Definition substring (sub s : string) : bool :=
  match String.index 0 sub s with
  | Some _ => true
  | None => false
  end.

(** [v in c].  Lists are searched with [==]; a dict is asked for a key,
    which must be hashable; a string only accepts a string; anything else
    is not a container. *)
Definition contains (v c : value) : checked bool :=
  match c with
  | VList l => Ok (existsb (eq v) l)
  | VDict d =>
      match v with
      | VStr k => Ok (match lookup k d with Some _ => true | None => false end)
      | VList _ | VDict _ => Err TypeError
      | _ => Ok false
      end
  | VStr s =>
      match v with
      | VStr sub => Ok (substring sub s)
      | _ => Err TypeError
      end
  | _ => Err TypeError
  end.

(** [r[k]] for a string key [k]: only a dict can answer. *)
Definition getitem (r : value) (k : string) : checked value :=
  match r with
  | VDict d =>
      match lookup k d with
      | Some v => Ok v
      | None => Err (KeyError k)
      end
  | _ => Err TypeError
  end.

(** [r.get(k)]: a method of dicts only. *)
Definition get (r : value) (k : string) : checked value :=
  match r with
  | VDict d =>
      Ok (match lookup k d with Some v => v | None => VNone end)
  | _ => Err AttributeError
  end.

(** A copy of [r] made by [dict] from its keywords. *)
Definition dict_copy (r : value) : checked dict :=
  match r with
  | VDict d => Ok d
  | _ => Err TypeError
  end.

(** The characters of a string, each as a one-character string. *)
Fixpoint chars (s : string) : list value :=
  match s with
  | EmptyString => []
  | String c s' => VStr (String c EmptyString) :: chars s'
  end.

(** [for x in v]: what the loop runs over. *)
Definition iter (v : value) : checked (list value) :=
  match v with
  | VList l => Ok l
  | VDict d => Ok (map (fun kv => VStr (fst kv)) d)
  | VStr s => Ok (chars s)
  | _ => Err TypeError
  end.

(** [range(0, n)] *)
Definition range (n : Z) : list Z :=
  map Z.of_nat (seq 0 (Z.to_nat n)).

(** [random.randint(lo, hi)], both ends included, from a raw draw. *)
Definition randint (lo hi raw : Z) : Z :=
  lo + raw mod (hi - lo + 1).

End Py.

(** ** The module object and the transport *)

(** [module.params] after validation against [vultr_argument_spec]: the
    five API parameters with their declared types, then the parameters of
    the adapter itself; and the check-mode flag of the run. *)
Record AnsibleModule : Type := {
  api_endpoint : string;
  api_key : string;
  api_timeout : Z;
  api_retries : Z;
  api_retry_max_delay : Z;
  resource_params : dict;
  check_mode : bool
}.

Definition params (m : AnsibleModule) : dict :=
  ([ ("api_endpoint", VStr (api_endpoint m));
     ("api_key", VStr (api_key m));
     ("api_timeout", VInt (api_timeout m));
     ("api_retries", VInt (api_retries m));
     ("api_retry_max_delay", VInt (api_retry_max_delay m)) ]
   ++ resource_params m)%list.

(** [module.params.get(k)] *)
Definition params_get (m : AnsibleModule) (k : string) : value :=
  match Py.lookup k (params m) with
  | Some v => v
  | None => VNone
  end.

(** What [fetch_url] is called with. *)
Record request : Type := {
  url : string;
  method : string;
  data : value;
  headers : list (string * string);
  timeout : Z
}.

(** What [fetch_url] hands back: [info['status']], the document that
    [resp.read()] decodes to ([None] when the body is not JSON), and the
    rest of the transport's diagnostic [info]. *)
Record response : Type := {
  status : Z;
  body : option value;
  info_msg : string
}.

(** The world outside the process: a remote service that answers one
    request at a time and may change as it does so, a source of raw random
    draws, and Python's [str] on lists and dicts. *)
Class Remote : Type := {
  World : Type;
  fetch_url : World -> request -> response * World;
  entropy : nat -> Z;
  py_repr : value -> string
}.

(** What the process does to the outside, in order. *)
Inductive event : Type :=
| EvFetch (req : request) (resp : response)
| EvSleep (delay : Q).

(** ** The engine's own data *)

(** The adapter's description of its resource, as [__init__] stores it. *)
Record AnsibleVultr : Type := {
  module : AnsibleModule;
  namespace : string;
  resource_path : string;
  ressource_result_key_singular : string;
  ressource_result_key_plural : string;
  resource_key_name : string;
  resource_key_id : string;
  resource_get_details : bool;
  resource_create_param_keys : list string;
  resource_update_param_keys : list string;
  resource_update_method : string
}.

(** [self.result]: the keys [changed], [<namespace>], [diff] (with [before]
    and [after]) and [vultr_api].  The namespace is the adapter's own key
    and is kept as a field of its own. *)
Record result : Type := {
  changed : bool;
  payload : value;
  diff_before : dict;
  diff_after : dict;
  vultr_api : dict
}.

Definition VULTR_USER_AGENT : string := "Ansible Vultr v2".

(** [x or default] on an optional string and on an optional list. *)
Definition or_string (x : option string) (default : string) : string :=
  match x with
  | Some s => if String.eqb s "" then default else s
  | None => default
  end.

Definition or_keys (x : option (list string)) (default : list string)
  : list string :=
  match x with
  | Some (k :: ks) => k :: ks
  | _ => default
  end.

(** [AnsibleVultr.__init__], the descriptor part. *)
Definition init (module : AnsibleModule) (namespace resource_path : string)
    (ressource_result_key_singular : string)
    (ressource_result_key_plural : option string)
    (resource_key_name resource_key_id : string)
    (resource_get_details : bool)
    (resource_create_param_keys resource_update_param_keys
       : option (list string))
    (resource_update_method : string) : AnsibleVultr :=
  {| module := module;
     namespace := namespace;
     resource_path := resource_path;
     ressource_result_key_singular := ressource_result_key_singular;
     ressource_result_key_plural :=
       or_string ressource_result_key_plural
                 (ressource_result_key_singular ++ "s");
     resource_key_name := resource_key_name;
     resource_key_id := resource_key_id;
     resource_get_details := resource_get_details;
     resource_create_param_keys :=
       or_keys resource_create_param_keys ["name"];
     resource_update_param_keys :=
       or_keys resource_update_param_keys ["name"];
     resource_update_method := resource_update_method |}.

(** [AnsibleVultr.__init__], the initial [self.result]. *)
Definition init_result (m : AnsibleModule) : result :=
  {| changed := false;
     payload := VDict [];
     diff_before := [];
     diff_after := [];
     vultr_api :=
       [ ("api_timeout", VInt (api_timeout m));
         ("api_retries", VInt (api_retries m));
         ("api_retry_max_delay", VInt (api_retry_max_delay m));
         ("api_endpoint", VStr (api_endpoint m)) ] |}.

(** [AnsibleVultr.__init__], [self.headers]. *)
Definition init_headers (m : AnsibleModule) : list (string * string) :=
  [ ("Authorization", "Bearer " ++ api_key m);
    ("User-Agent", VULTR_USER_AGENT);
    ("Accept", "application/json") ].

(** ** Running the engine *)

(** How a call ends: it returns, raises, or leaves the process through
    [fail_json] or [exit_json]. *)
Inductive outcome (A : Type) : Type :=
| Ret (a : A)
| Raise (e : exn)
| FailJson (msg : string) (fetch_url_info : response)
| ExitJson (r : result).
Arguments Ret {A} a.
Arguments Raise {A} e.
Arguments FailJson {A} msg fetch_url_info.
Arguments ExitJson {A} r.

Section Engine.

Context {R : Remote}.

(** The state a call runs in: the remote world, the number of random
    draws taken so far, what has been done to the outside, and
    [self.result]. *)
Record state : Type := {
  world : World;
  draws : nat;
  trace : list event;
  st_result : result
}.

(** The state a fresh [AnsibleVultr] object starts in. *)
Definition init_state (self : AnsibleVultr) (w : World) (n : nat) : state :=
  {| world := w; draws := n; trace := [];
     st_result := init_result (module self) |}.

Definition M (A : Type) : Type := state -> outcome A * state.

Definition ret {A} (a : A) : M A := fun s => (Ret a, s).

Definition bind {A B} (c : M A) (k : A -> M B) : M B :=
  fun s =>
    match c s with
    | (Ret a, s') => k a s'
    | (Raise e, s') => (Raise e, s')
    | (FailJson msg info, s') => (FailJson msg info, s')
    | (ExitJson r, s') => (ExitJson r, s')
    end.

Notation "x <- c ;; k" := (bind c (fun x => k))
  (at level 61, c at next level, right associativity).
Notation "c ;;' k" := (bind c (fun _ => k))
  (at level 61, right associativity).

Definition raise {A} (e : exn) : M A := fun s => (Raise e, s).

Definition lift {A} (r : checked A) : M A :=
  match r with
  | Ok a => ret a
  | Err e => raise e
  end.

Definition log (e : event) : M unit :=
  fun s => (Ret tt, {| world := world s; draws := draws s;
                       trace := (trace s ++ [e])%list;
                       st_result := st_result s |}).

Definition set_world (w : World) (s : state) : state :=
  {| world := w; draws := draws s; trace := trace s;
     st_result := st_result s |}.

Definition modify_result (f : result -> result) : M unit :=
  fun s => (Ret tt, {| world := world s; draws := draws s;
                       trace := trace s;
                       st_result := f (st_result s) |}).

(** [module.exit_json], given [self.result], and [module.fail_json] *)
Definition exit_json {A} : M A := fun s => (ExitJson (st_result s), s).

Definition fail_json {A} (msg : string) (info : response) : M A :=
  fun s => (FailJson msg info, s).

(** [time.sleep(delay)]: a negative delay is refused. *)
Definition sleep (delay : Q) : M unit :=
  log (EvSleep delay) ;;'
  if Qle_bool 0 delay then ret tt else raise ValueError.

(** One call of [fetch_url]. *)
Definition fetch (req : request) : M response :=
  fun s =>
    let (resp, w) := fetch_url (world s) req in
    (log (EvFetch req resp) ;;' ret resp) (set_world w s).

(** The draw [random.randint(0, 1000) / 1000.0]. *)
Definition take_randomness : M Q :=
  fun s =>
    (Ret (inject_Z (Py.randint 0 1000 (entropy (draws s))) / inject_Z 1000)%Q,
     {| world := world s; draws := S (draws s); trace := trace s;
        st_result := st_result s |}).

(** [str(v)], as [%s] formats a value. *)
Definition py_str (v : value) : string :=
  match v with
  | VNone => "None"
  | VBool true => "True"
  | VBool false => "False"
  | VInt z => NilZero.string_of_int (Z.to_int z)
  | VStr s => s
  | VList _ | VDict _ => py_repr v
  end.

Definition quote : string := String (ascii_of_nat 34) EmptyString.

(** The message of the terminal failure. *)
Definition failure_msg (method path : string) : string :=
  "Failure while calling the Vultr API v2 with " ++ method ++ " for "
    ++ quote ++ path ++ quote ++ ".".

(** The request [api_query] sends, the same at every attempt. *)
Definition api_request (self : AnsibleVultr) (path method : string)
    (data : value) : request :=
  {| url := api_endpoint (module self) ++ path;
     method := method;
     data := data;
     headers := init_headers (module self);
     timeout := api_timeout (module self) |}.

(** The delay slept after a 429 at attempt [retry]. *)
Definition backoff (retry_max_delay retry : Z) (randomness : Q) : Q :=
  let delay := (inject_Z (2 ^ retry) + randomness)%Q in
  if negb (Qle_bool delay (inject_Z retry_max_delay))
  then (inject_Z retry_max_delay + randomness)%Q
  else delay.

(** The [for retry in range(0, api_retries)] loop of [api_query]; [info]
    is the last response seen, unbound before the first attempt. *)
Fixpoint retry_loop (req : request) (retry_max_delay : Z) (randomness : Q)
    (retries : list Z) (info : option response) : M (option response) :=
  match retries with
  | [] => ret info
  | retry :: rest =>
      resp <- fetch req ;;
      if negb (Z.eqb (status resp) 429) then ret (Some resp)
      else
        sleep (backoff retry_max_delay retry randomness) ;;'
        retry_loop req retry_max_delay randomness rest (Some resp)
  end.

(** The part of [api_query] after the loop. *)
Definition classify (method path : string) (info : option response)
  : M value :=
  match info with
  | None => raise (UnboundLocalError "info")
  | Some resp =>
      if existsb (Z.eqb (status resp)) [200; 201] then
        match body resp with
        | Some v => ret v
        | None => raise ValueError
        end
      else if existsb (Z.eqb (status resp)) [404; 204] then ret VNone
      else fail_json (failure_msg method path) resp
  end.

(** The part of [api_query] up to the end of the loop. *)
Definition api_loop (self : AnsibleVultr) (path method : string)
    (data : value) : M (option response) :=
  let retry_max_delay := api_retry_max_delay (module self) in
  randomness <- take_randomness ;;
  retry_loop (api_request self path method data) retry_max_delay
    randomness (Py.range (api_retries (module self))) None.

Definition api_query (self : AnsibleVultr) (path method : string)
    (data : value) : M value :=
  info <- api_loop self path method data ;;
  classify method path info.

Definition query_list (self : AnsibleVultr) : M value :=
  resources <- api_query self (resource_path self) "GET" VNone ;;
  if Py.truthy resources
  then lift (Py.getitem resources (ressource_result_key_plural self))
  else ret (VList []).

(** The path suffix of a query by id:
    ["/" + resource_id if resource_id else resource_id], formatted. *)
Definition id_suffix (resource_id : value) : checked string :=
  if Py.truthy resource_id then
    match resource_id with
    | VStr s => Ok ("/" ++ s)
    | _ => Err TypeError
    end
  else Ok (py_str resource_id).

(** [query], with the depth of the Python stack it may still use. *)
Fixpoint query_rec (depth : nat) (self : AnsibleVultr) (resource_id : value)
  : M value :=
  match depth with
  | O => raise RecursionError
  | S depth' =>
      match resource_id with
      | VNone =>
          resources <- query_list self ;;
          items <- lift (Py.iter resources) ;;
          (fix scan (items : list value) : M value :=
             match items with
             | [] => ret (VDict [])
             | resource :: rest =>
                 name <- lift (Py.get resource (resource_key_name self)) ;;
                 if Py.eq name
                      (params_get (module self) (resource_key_name self))
                 then
                   if resource_get_details self then
                     rid <- lift (Py.getitem resource
                                    (resource_key_id self)) ;;
                     query_rec depth' self rid
                   else ret resource
                 else scan rest
             end) items
      | _ =>
          suffix <- lift (id_suffix resource_id) ;;
          resource <- api_query self (resource_path self ++ suffix)
                        "GET" VNone ;;
          if Py.truthy resource
          then lift (Py.getitem resource
                       (ressource_result_key_singular self))
          else ret (VDict [])
      end
  end.

Definition recursion_limit : nat := 1000.

Definition query (self : AnsibleVultr) (resource_id : value) : M value :=
  query_rec recursion_limit self resource_id.

(** The body built from a list of parameter names:
    [for param in keys: data[param] = self.module.params.get(param)]. *)
Definition build_data (m : AnsibleModule) (keys : list string) : dict :=
  fold_left (fun data param => Py.setitem data param (params_get m param))
            keys [].

Definition get_result {A} (self : AnsibleVultr) (resource : value) : M A :=
  modify_result (fun r =>
    {| changed := changed r; payload := resource;
       diff_before := diff_before r; diff_after := diff_after r;
       vultr_api := vultr_api r |}) ;;'
  exit_json.

Definition set_changed (b : bool) : M unit :=
  modify_result (fun r =>
    {| changed := b; payload := payload r;
       diff_before := diff_before r; diff_after := diff_after r;
       vultr_api := vultr_api r |}).

Definition set_diff (before after : dict) : M unit :=
  modify_result (fun r =>
    {| changed := changed r; payload := payload r;
       diff_before := before; diff_after := after;
       vultr_api := vultr_api r |}).

Definition create (self : AnsibleVultr) : M value :=
  let data := build_data (module self) (resource_create_param_keys self) in
  set_changed true ;;'
  set_diff [] data ;;'
  resource <-
    (if negb (check_mode (module self))
     then api_query self (resource_path self) "POST" (VDict data)
     else ret (VDict [])) ;;
  if Py.truthy resource
  then lift (Py.get resource (ressource_result_key_singular self))
  else ret (VDict []).

(** One key of the walk of [is_diff]: [Ok true] is [return True],
    [Ok false] moves on to the next key. *)
Definition differs (key : string) (value0 resource : value) : checked bool :=
  match value0 with
  | VNone => Ok false
  | VList l =>
      (fix each (l : list value) : checked bool :=
         match l with
         | [] => Ok false
         | v :: l' =>
             match Py.getitem resource key with
             | Err e => Err e
             | Ok field =>
                 match Py.contains v field with
                 | Err e => Err e
                 | Ok true => each l'
                 | Ok false => Ok true
                 end
             end
         end) l
  | _ =>
      match Py.getitem resource key with
      | Err e => Err e
      | Ok field => Ok (negb (Py.eq field value0))
      end
  end.

Fixpoint is_diff (data : dict) (resource : value) : checked bool :=
  match data with
  | [] => Ok false
  | (key, value0) :: data' =>
      match differs key value0 resource with
      | Err e => Err e
      | Ok true => Ok true
      | Ok false => is_diff data' resource
      end
  end.

Definition update (self : AnsibleVultr) (resource : value) : M value :=
  let data := build_data (module self) (resource_update_param_keys self) in
  diff <- lift (is_diff data resource) ;;
  if diff : bool then
    set_changed true ;;'
    before <- lift (Py.dict_copy resource) ;;
    set_diff before (Py.update before data) ;;'
    if negb (check_mode (module self)) then
      rid <- lift (Py.getitem resource (resource_key_id self)) ;;
      api_query self (resource_path self ++ "/" ++ py_str rid)
        (resource_update_method self) (VDict data) ;;'
      rid' <- lift (Py.getitem resource (resource_key_id self)) ;;
      query self rid'
    else ret resource
  else ret resource.

Definition absent (self : AnsibleVultr) : M unit :=
  resource <- query self VNone ;;
  (if Py.truthy resource then
     set_changed true ;;'
     before <- lift (Py.dict_copy resource) ;;
     set_diff before [] ;;'
     if negb (check_mode (module self)) then
       rid <- lift (Py.getitem resource (resource_key_id self)) ;;
       api_query self (resource_path self ++ "/" ++ py_str rid)
         "DELETE" VNone ;;'
       ret tt
     else ret tt
   else ret tt) ;;'
  get_result self resource.

Definition present (self : AnsibleVultr) : M unit :=
  resource <- query self VNone ;;
  resource <-
    (if negb (Py.truthy resource) then
       resource <- create self ;;
       if Py.truthy resource && resource_get_details self then
         rid <- lift (Py.getitem resource (resource_key_id self)) ;;
         query self rid
       else ret resource
     else update self resource) ;;
  get_result self resource.

End Engine.

Notation "x <- c ;; k" := (bind c (fun x => k))
  (at level 61, c at next level, right associativity).
Notation "c ;;' k" := (bind c (fun _ => k))
  (at level 61, right associativity).

(** ** The [dns_domain] module ([plugins/modules/dns_domain.py]) *)

Section DnsDomain.

Context {R : Remote}.

(** The engine object that [main] builds from the validated module. *)
Definition dns_domain_vultr (m : AnsibleModule) : AnsibleVultr :=
  init m "vultr_dns_domain" "/domains" "domain" None "domain" "domain"
       false (Some ["domain"; "ip"]) (Some ["domain"]) "PATCH".

(** [main], from the engine object on. *)
Definition main (m : AnsibleModule) : M unit :=
  let vultr := dns_domain_vultr m in
  if Py.eq (params_get m "state") (VStr "absent")
  then absent vultr
  else present vultr.

End DnsDomain.

(** ** Variants of an engine object *)

(** The same run in or out of check mode. *)
Definition set_check_mode (b : bool) (self : AnsibleVultr) : AnsibleVultr :=
  {| module :=
       {| api_endpoint := api_endpoint (module self);
          api_key := api_key (module self);
          api_timeout := api_timeout (module self);
          api_retries := api_retries (module self);
          api_retry_max_delay := api_retry_max_delay (module self);
          resource_params := resource_params (module self);
          check_mode := b |};
     namespace := namespace self;
     resource_path := resource_path self;
     ressource_result_key_singular := ressource_result_key_singular self;
     ressource_result_key_plural := ressource_result_key_plural self;
     resource_key_name := resource_key_name self;
     resource_key_id := resource_key_id self;
     resource_get_details := resource_get_details self;
     resource_create_param_keys := resource_create_param_keys self;
     resource_update_param_keys := resource_update_param_keys self;
     resource_update_method := resource_update_method self |}.


(** The same run with another number of retries. *)
Definition set_api_retries (n : Z) (self : AnsibleVultr) : AnsibleVultr :=
  {| module :=
       {| api_endpoint := api_endpoint (module self);
          api_key := api_key (module self);
          api_timeout := api_timeout (module self);
          api_retries := n;
          api_retry_max_delay := api_retry_max_delay (module self);
          resource_params := resource_params (module self);
          check_mode := check_mode (module self) |};
     namespace := namespace self;
     resource_path := resource_path self;
     ressource_result_key_singular := ressource_result_key_singular self;
     ressource_result_key_plural := ressource_result_key_plural self;
     resource_key_name := resource_key_name self;
     resource_key_id := resource_key_id self;
     resource_get_details := resource_get_details self;
     resource_create_param_keys := resource_create_param_keys self;
     resource_update_param_keys := resource_update_param_keys self;
     resource_update_method := resource_update_method self |}.

(** ** Reading a trace *)

Fixpoint fetches (evs : list event) : list (request * response) :=
  match evs with
  | [] => []
  | EvFetch req resp :: evs' => (req, resp) :: fetches evs'
  | EvSleep _ :: evs' => fetches evs'
  end.

Fixpoint sleeps (evs : list event) : list Q :=
  match evs with
  | [] => []
  | EvFetch _ _ :: evs' => sleeps evs'
  | EvSleep d :: evs' => d :: sleeps evs'
  end.

(** A request that is not a plain read. *)
Definition is_write (req : request) : bool :=
  negb (String.eqb (method req) "GET").

(** ** Two small remotes to run the engine against *)

Definition no_response : response :=
  {| status := 500; body := None; info_msg := "no response" |}.

(** A transport that plays back a script of responses; every random draw
    is [raw]. *)
Definition scripted (raw : Z) : Remote :=
  {| World := list response;
     fetch_url := fun w _ =>
       match w with
       | r :: w' => (r, w')
       | [] => (no_response, [])
       end;
     entropy := fun _ => raw;
     py_repr := fun _ => "" |}.

Definition reply (st : Z) (doc : option value) : response :=
  {| status := st; body := doc; info_msg := "" |}.

(** A DNS service that holds at most the zone [example.com], with the
    server IP either the one the play asks for or another one. *)
Inductive zone : Type := Absent | Stale | Fresh.

Definition zone_record (ip : string) : dict :=
  [("domain", VStr "example.com"); ("ip", VStr ip)].

Definition zone_listing (z : zone) : list value :=
  match z with
  | Absent => []
  | Stale => [VDict (zone_record "10.9.9.9")]
  | Fresh => [VDict (zone_record "10.0.0.1")]
  end.

(** The zone after a body has been written to it: a written [ip] is
    stored, a body without one leaves the stored one alone. *)
Definition zone_write (z : zone) (body0 : value) : zone :=
  match body0 with
  | VDict b =>
      match Py.lookup "ip" b with
      | Some ip => if Py.eq ip (VStr "10.0.0.1") then Fresh else Stale
      | None => match z with Absent => Stale | _ => z end
      end
  | _ => z
  end.

Definition zone_fetch (z : zone) (req : request) : response * zone :=
  if String.eqb (url req) "https://api.vultr.com/v2/domains" then
    if String.eqb (method req) "GET" then
      (reply 200 (Some (VDict [("domains", VList (zone_listing z))])), z)
    else if String.eqb (method req) "POST" then
      let z' := zone_write Absent (data req) in
      (reply 201 (Some (VDict [("domain",
                                 match zone_listing z' with
                                 | r :: _ => r
                                 | [] => VNone
                                 end)])), z')
    else (reply 405 None, z)
  else if String.eqb (url req)
            "https://api.vultr.com/v2/domains/example.com" then
    match zone_listing z with
    | [] => (reply 404 None, z)
    | r :: _ =>
        if String.eqb (method req) "GET" then
          (reply 200 (Some (VDict [("domain", r)])), z)
        else if String.eqb (method req) "DELETE" then
          (reply 204 None, Absent)
        else if String.eqb (method req) "PATCH" then
          (reply 204 None, zone_write z (data req))
        else (reply 405 None, z)
    end
  else (reply 404 None, z).

Definition zone_remote : Remote :=
  {| World := zone;
     fetch_url := zone_fetch;
     entropy := fun n => Z.of_nat n;
     py_repr := fun _ => "" |}.

(** The module object of a run of [dns_domain] and the engine object the
    adapter builds from it. *)
Definition dns_module (key : string) (check : bool) : AnsibleModule :=
  {| api_endpoint := "https://api.vultr.com/v2";
     api_key := key;
     api_timeout := 60;
     api_retries := 5;
     api_retry_max_delay := 12;
     resource_params :=
       [("domain", VStr "example.com"); ("ip", VStr "10.0.0.1");
        ("state", VStr "present")];
     check_mode := check |}.

Definition dns_domain (check : bool) : AnsibleVultr :=
  init (dns_module "secret" check) "vultr_dns_domain" "/domains" "domain"
       None "domain" "domain" false
       (Some ["domain"; "ip"]) (Some ["domain"]) "PATCH".

(** The same adapter, made to manage the server IP as well. *)
Definition dns_zone (check : bool) : AnsibleVultr :=
  init (dns_module "secret" check) "vultr_dns_domain" "/domains" "domain"
       None "domain" "domain" false
       (Some ["domain"; "ip"]) (Some ["domain"; "ip"]) "PATCH".





(** An adapter that manages a parameter the play does not set. *)
Definition dns_sec : AnsibleVultr :=
  init (dns_module "secret" false) "vultr_dns_domain" "/domains" "domain"
       None "domain" "domain" false
       (Some ["domain"; "ip"]) (Some ["dns_sec"]) "PATCH".


(** ** The vocabulary of the properties *)

Section Vocabulary.

Context {R : Remote}.

(** The randomness of a call of [api_query] that starts at draw [n]. *)
Definition jitter (n : nat) : Q :=
  (inject_Z (Py.randint 0 1000 (entropy n)) / inject_Z 1000)%Q.

(** The shape of what one run of the loop does to the outside, from
    attempt [retry] on. *)
Inductive attempts (req : request) (M : Z) (j : Q)
  : Z -> list event -> Prop :=
| attempts_done retry : attempts req M j retry []
| attempts_last retry resp :
    status resp <> 429 -> attempts req M j retry [EvFetch req resp]
| attempts_again retry resp evs :
    status resp = 429 ->
    attempts req M j (retry + 1) evs ->
    attempts req M j retry
      (EvFetch req resp :: EvSleep (backoff M retry j) :: evs).

(** An outcome that a call below [get_result] can have: it returns or
    fails, but does not leave through [exit_json]. *)
Definition no_exit {A} (o : outcome A) : Prop :=
  match o with
  | ExitJson _ => False
  | _ => True
  end.



(** The field [key] of the resource differs from the proposed value [v],
    in the words of the specification: [v] is not [None], and either it is
    a list one of whose elements is not contained in the field, or it is a
    scalar unequal to the field. *)
Definition field_differs (resource : value) (key : string) (v : value)
  : Prop :=
  v <> VNone /\
  ((exists l, v = VList l /\
      exists x field,
        In x l /\ Py.getitem resource key = Ok field /\
        Py.contains x field = Ok false)
   \/
   ((forall l, v <> VList l) /\
      exists field,
        Py.getitem resource key = Ok field /\ Py.eq field v = false)).

(** Every managed key of the body can be compared with the resource: the
    resource has the field, and for a proposed list the field answers
    membership tests. *)
Definition comparable (data : dict) (resource : value) : Prop :=
  forall key v,
    In (key, v) data -> v <> VNone ->
    exists field,
      Py.getitem resource key = Ok field /\
      forall l x, v = VList l -> In x l ->
                  exists b, Py.contains x field = Ok b.

(** Every run of [c] takes a state to one related to it by [P]. *)
Definition steps {A} (P : state -> state -> Prop) (c : M A) : Prop :=
  forall s, P s (snd (c s)).

(** No run of [c] leaves through [exit_json]. *)
Definition quiet {A} (c : M A) : Prop :=
  forall s, no_exit (fst (c s)).

(** A run of [c] that leaves through [exit_json] hands over the
    [self.result] of its last state. *)
Definition hands_over {A} (c : M A) : Prop :=
  forall s r, fst (c s) = ExitJson r -> r = st_result (snd (c s)).

(** The relations between the state before and the state after a call:
    [self.result] is the same, its echo is the same, and so on. *)
Definition same_result (s s' : state) : Prop :=
  st_result s' = st_result s.


(** What is added to the trace holds only read requests. *)
Definition only_reads (s s' : state) : Prop :=
  exists evs,
    trace s' = (trace s ++ evs)%list /\
    forall rq resp, In (rq, resp) (fetches evs) -> is_write rq = false.


(** What a run reports about the change it made or would make. *)
Definition report (s : state) : bool * dict * dict :=
  (changed (st_result s), diff_before (st_result s),
   diff_after (st_result s)).

(** The report is the same. *)
Definition same_report (s s' : state) : Prop := report s' = report s.

(** Nothing has been done to the outside. *)
Definition same_trace (s s' : state) : Prop := trace s' = trace s.

(** The state with another [self.result]. *)
Definition with_result (r : result) (s : state) : state :=
  {| world := world s; draws := draws s; trace := trace s;
     st_result := r |}.

(** [self.result] once an update has been found necessary. *)
Definition record_update (before data : dict) (r : result) : result :=
  {| changed := true; payload := payload r;
     diff_before := before; diff_after := Py.update before data;
     vultr_api := vultr_api r |}.






(** The body of an update. *)
Definition update_data (self : AnsibleVultr) : dict :=
  build_data (module self) (resource_update_param_keys self).






(** What is added to the trace holds only requests that satisfy [Q]. *)
Definition sends_only (Q : request -> Prop) (s s' : state) : Prop :=
  exists evs,
    trace s' = (trace s ++ evs)%list /\
    forall rq resp, In (rq, resp) (fetches evs) -> Q rq.


(** The state of a call of [api_query] after its first exchange. *)
Definition after_first (req : request) (s : state) : state :=
  {| world := snd (fetch_url (world s) req); draws := S (draws s);
     trace := (trace s ++ [EvFetch req (fst (fetch_url (world s) req))])%list;
     st_result := st_result s |}.

(** The envelope of every request of the engine: the three headers, the
    bearer token among them, the configured timeout, and a URL under the
    configured endpoint. *)
Definition in_envelope (self : AnsibleVultr) (rq : request) : Prop :=
  headers rq
  = [ ("Authorization", "Bearer " ++ api_key (module self));
      ("User-Agent", "Ansible Vultr v2");
      ("Accept", "application/json") ] /\
  timeout rq = api_timeout (module self) /\
  exists path, url rq = api_endpoint (module self) ++ path.

(** The loop of [query] over the listed resources, with the depth left
    for the query by id. *)
Fixpoint scan (depth : nat) (self : AnsibleVultr) (items : list value)
  : M value :=
  match items with
  | [] => ret (VDict [])
  | resource :: rest =>
      name <- lift (Py.get resource (resource_key_name self)) ;;
      if Py.eq name (params_get (module self) (resource_key_name self))
      then
        if resource_get_details self then
          rid <- lift (Py.getitem resource (resource_key_id self)) ;;
          query_rec depth self rid
        else ret resource
      else scan depth self rest
  end.

(** The test of the loop on one listed resource. *)
Definition name_test (self : AnsibleVultr) (resource : value)
  : checked bool :=
  match Py.get resource (resource_key_name self) with
  | Ok name =>
      Ok (Py.eq name (params_get (module self) (resource_key_name self)))
  | Err e => Err e
  end.

(** A value that [str + ...] accepts. *)
Definition is_str (v : value) : bool :=
  match v with
  | VStr _ => true
  | _ => false
  end.

(** A field of the remote resource that is as before or a list that has
    gained elements at its end. *)
Definition grown (f f' : value) : Prop :=
  f' = f \/ exists l extra, f = VList l /\ f' = VList (l ++ extra)%list.

(** A resource with the same keys whose fields have grown. *)
Definition grown_resource (d d' : dict) : Prop :=
  Forall2 (fun kv kv' => fst kv = fst kv' /\ grown (snd kv) (snd kv')) d d'.

End Vocabulary.

(** * Properties *)

Example eq_bool_int : Py.eq (VBool true) (VInt 1) = true.
Proof. reflexivity. Qed.

Example eq_dict_unordered :
  Py.eq (VDict [("a", VInt 1); ("b", VInt 2)])
        (VDict [("b", VInt 2); ("a", VInt 1)]) = true.
Proof. reflexivity. Qed.

Example contains_substring :
  Py.contains (VStr "bc") (VStr "abcd") = Ok true.
Proof. reflexivity. Qed.

Example str_of_int : py_str (R := zone_remote) (VInt (-42)) = "-42".
Proof. reflexivity. Qed.

Example present_creates :
  fst (present (R := zone_remote) (dns_domain false)
         (init_state (R := zone_remote) (dns_domain false) Absent 0))
  = ExitJson {| changed := true;
                payload := VDict (zone_record "10.0.0.1");
                diff_before := [];
                diff_after := zone_record "10.0.0.1";
                vultr_api := vultr_api (init_result (dns_module "secret" false)) |}.
Proof. vm_compute. reflexivity. Qed.

Section Properties.

Context {R : Remote}.








(** *** The retry loop *)

Lemma fetch_eq req s :
  fetch req s =
  (Ret (fst (fetch_url (world s) req)),
   {| world := snd (fetch_url (world s) req); draws := draws s;
      trace := (trace s ++ [EvFetch req (fst (fetch_url (world s) req))])%list;
      st_result := st_result s |}).
Proof.
  unfold fetch. destruct (fetch_url (world s) req) as [resp w].
  reflexivity.
Qed.

Lemma sleep_eq d s :
  sleep d s =
  ((if Qle_bool 0 d then Ret tt else Raise ValueError),
   {| world := world s; draws := draws s;
      trace := (trace s ++ [EvSleep d])%list;
      st_result := st_result s |}).
Proof.
  unfold sleep, bind, log. destruct (Qle_bool 0 d); reflexivity.
Qed.

Lemma retry_loop_cons req M j retry rest info s :
  retry_loop req M j (retry :: rest) info s =
  let resp := fst (fetch_url (world s) req) in
  let s1 := {| world := snd (fetch_url (world s) req); draws := draws s;
               trace := (trace s ++ [EvFetch req resp])%list;
               st_result := st_result s |} in
  if negb (Z.eqb (status resp) 429) then (Ret (Some resp), s1)
  else
    let d := backoff M retry j in
    let s2 := {| world := world s1; draws := draws s1;
                 trace := (trace s1 ++ [EvSleep d])%list;
                 st_result := st_result s1 |} in
    if Qle_bool 0 d
    then retry_loop req M j rest (Some resp) s2
    else (Raise ValueError, s2).
Proof.
  cbn [retry_loop]. unfold bind at 1. rewrite fetch_eq. cbv zeta.
  destruct (negb (Z.eqb (status (fst (fetch_url (world s) req))) 429));
    [reflexivity|].
  unfold bind. rewrite sleep_eq.
  destruct (Qle_bool 0 (backoff M retry j)); reflexivity.
Qed.

Lemma retry_loop_attempts req M j m :
  forall k info s o s',
    retry_loop req M j (map Z.of_nat (seq k m)) info s = (o, s') ->
    exists evs,
      trace s' = (trace s ++ evs)%list /\
      attempts req M j (Z.of_nat k) evs /\
      draws s' = draws s /\ st_result s' = st_result s /\
      (o = Raise ValueError \/ exists info', o = Ret info').
Proof.
  induction m as [|m IH]; intros k info s o s' H.
  - cbn in H. inversion H; subst. exists []. rewrite app_nil_r.
    repeat split; [constructor | right; eauto].
  - cbn [seq map] in H. rewrite retry_loop_cons in H. cbv zeta in H.
    set (resp := fst (fetch_url (world s) req)) in *.
    destruct (Z.eqb (status resp) 429) eqn:E; cbn [negb] in H.
    + apply Z.eqb_eq in E.
      destruct (Qle_bool 0 (backoff M (Z.of_nat k) j)).
      * apply IH in H. destruct H as (evs & Ht & Ha & Hd & Hr & Ho).
        cbn in Ht, Hd, Hr.
        exists (EvFetch req resp :: EvSleep (backoff M (Z.of_nat k) j) :: evs).
        repeat split; auto.
        -- rewrite Ht. rewrite <- !app_assoc. reflexivity.
        -- apply attempts_again; auto.
           replace (Z.of_nat k + 1) with (Z.of_nat (S k)) by lia. exact Ha.
      * inversion H; subst; cbn.
        exists [EvFetch req resp; EvSleep (backoff M (Z.of_nat k) j)].
        repeat split; auto.
        -- rewrite <- app_assoc. reflexivity.
        -- apply attempts_again; auto. constructor.
    + apply Z.eqb_neq in E. inversion H; subst; cbn.
      exists [EvFetch req resp]. repeat split; auto.
      * apply attempts_last; auto.
      * right; eauto.
Qed.

Lemma attempts_fetches req M j retry evs :
  attempts req M j retry evs ->
  forall a rq resp,
    nth_error (fetches evs) a = Some (rq, resp) ->
    rq = req /\
    (status resp = 429 ->
     nth_error (sleeps evs) a = Some (backoff M (retry + Z.of_nat a) j)) /\
    (status resp <> 429 ->
     List.length (fetches evs) = S a /\
     exists pre, evs = (pre ++ [EvFetch rq resp])%list).
Proof.
  induction 1 as [retry | retry resp0 Hs | retry resp0 evs Hs Ha IH];
    intros a rq resp Hn.
  - destruct a; discriminate.
  - destruct a as [|a]; cbn in Hn; [|destruct a; discriminate].
    inversion Hn; subst. split; [reflexivity|]. split.
    + intros C; contradiction.
    + intros _. split; [reflexivity|]. exists []. reflexivity.
  - destruct a as [|a]; cbn in Hn.
    + inversion Hn; subst. split; [reflexivity|]. split.
      * intros _. cbn. rewrite Z.add_0_r. reflexivity.
      * intros C; contradiction.
    + destruct (IH _ _ _ Hn) as (Hq & H429 & Hstop).
      split; [exact Hq|]. split.
      * intros E. cbn. rewrite (H429 E). f_equal. f_equal. lia.
      * intros E. destruct (Hstop E) as [Hl [pre Hp]]. split.
        -- cbn. f_equal. exact Hl.
        -- exists (EvFetch req resp0 :: EvSleep (backoff M retry j) :: pre).
           cbn. rewrite Hp. reflexivity.
Qed.



Lemma api_loop_eq self path method data s :
  api_loop self path method data s =
  retry_loop (api_request self path method data)
    (api_retry_max_delay (module self)) (jitter (draws s))
    (Py.range (api_retries (module self))) None
    {| world := world s; draws := S (draws s); trace := trace s;
       st_result := st_result s |}.
Proof. reflexivity. Qed.

Lemma classify_state method path info s :
  snd (classify method path info s) = s.
Proof.
  unfold classify. destruct info as [resp|]; [|reflexivity].
  destruct (existsb _ _); [destruct (body resp); reflexivity|].
  destruct (existsb _ _); reflexivity.
Qed.

Lemma classify_no_exit method path info s :
  no_exit (fst (classify method path info s)).
Proof.
  unfold classify. destruct info as [resp|]; [|exact I].
  destruct (existsb _ _); [destruct (body resp); exact I|].
  destruct (existsb _ _); exact I.
Qed.

(** What any call of [api_query] does to the state. *)
Lemma api_query_effect self path method data s :
  exists evs,
    trace (snd (api_query self path method data s)) = (trace s ++ evs)%list /\
    attempts (api_request self path method data)
      (api_retry_max_delay (module self)) (jitter (draws s)) 0 evs /\
    draws (snd (api_query self path method data s)) = S (draws s) /\
    st_result (snd (api_query self path method data s)) = st_result s /\
    no_exit (fst (api_query self path method data s)).
Proof.
  unfold api_query, bind. rewrite api_loop_eq. unfold Py.range.
  match goal with
  | |- context [retry_loop ?r ?m ?j ?l ?i ?st] =>
      destruct (retry_loop r m j l i st) as [o s'] eqn:E
  end.
  apply retry_loop_attempts in E.
  destruct E as (evs & Ht & Ha & Hd & Hr & Ho). cbn in Ht, Hd, Hr, Ha.
  exists evs.
  destruct Ho as [-> | [info' ->]].
  - cbn. auto.
  - pose proof (classify_state method path info' s') as Hs.
    pose proof (classify_no_exit method path info' s') as Hn.
    destruct (classify method path info' s') as [o2 s2]. cbn in *. subst s2.
    auto.
Qed.

(** *** The back-off delay (C1) *)


(** *** The retry bound (C2) *)


(** *** The classification of the final response (C3) *)

(** C3: once the loop has ended with the response [resp], a status 200 or
    201 returns the decoded body (a body that does not decode is a
    [ValueError]), a status 404 or 204 returns [None], and every other
    status, a remaining 429 included, ends in [fail_json] with a message
    that names the method and the path and with [resp] as transport
    info. *)
Theorem api_query_classification self path method data s resp s1 :
  api_loop self path method data s = (Ret (Some resp), s1) ->
  let o := api_query self path method data s in
  snd o = s1 /\
  (status resp = 200 \/ status resp = 201 ->
   fst o = match body resp with
           | Some v => Ret v
           | None => Raise ValueError
           end) /\
  (status resp = 404 \/ status resp = 204 -> fst o = Ret VNone) /\
  (status resp <> 200 -> status resp <> 201 ->
   status resp <> 404 -> status resp <> 204 ->
   fst o = FailJson (failure_msg method path) resp /\
   exists pre mid post,
     failure_msg method path = pre ++ method ++ mid ++ path ++ post) /\
  (status resp = 429 -> fst o = FailJson (failure_msg method path) resp).
Proof.
  intros H. cbv zeta. unfold api_query, bind. rewrite H.
  split; [apply classify_state|].
  assert (F : status resp <> 200 -> status resp <> 201 ->
              status resp <> 404 -> status resp <> 204 ->
              fst (classify method path (Some resp) s1)
              = FailJson (failure_msg method path) resp).
  { intros A B C D. unfold classify. cbn [existsb].
    apply Z.eqb_neq in A, B, C, D. rewrite A, B, C, D. reflexivity. }
  split; [|split; [|split]].
  - intros [E|E]; unfold classify; rewrite E; cbn;
      destruct (body resp); reflexivity.
  - intros [E|E]; unfold classify; rewrite E; reflexivity.
  - intros A B C D. split; [apply F; assumption|].
    unfold failure_msg.
    exists "Failure while calling the Vultr API v2 with ".
    exists (" for " ++ quote). exists (quote ++ ".").
    reflexivity.
  - intros E. apply F; rewrite E; discriminate.
Qed.

(** *** The diff predicate (C4, C10) *)

Lemma differs_list key l resource :
  differs key (VList l) resource =
  match l with
  | [] => Ok false
  | x :: l' =>
      match Py.getitem resource key with
      | Err e => Err e
      | Ok field =>
          match Py.contains x field with
          | Err e => Err e
          | Ok true => differs key (VList l') resource
          | Ok false => Ok true
          end
      end
  end.
Proof. destruct l; reflexivity. Qed.

Lemma differs_true key v resource :
  differs key v resource = Ok true -> field_differs resource key v.
Proof.
  destruct v as [| b | z | s | l | d]; try discriminate.
  1-3, 5:
    cbn; destruct (Py.getitem resource key) as [field|] eqn:G;
    try discriminate; intros H; injection H as H;
    apply negb_true_iff in H;
    (split; [discriminate|]); right;
    (split; [intros; discriminate | exists field; auto]).
  induction l as [|x l IH]; rewrite differs_list; [discriminate|].
  destruct (Py.getitem resource key) as [field|] eqn:G; [|discriminate].
  destruct (Py.contains x field) as [[|]|] eqn:C; try discriminate.
  - intros H. destruct (IH H) as [_ [(l0 & El & y & f & Hy & Hg & Hc) | [N _]]].
    + injection El as <-. split; [discriminate|]. left.
      exists (x :: l). split; [reflexivity|].
      exists y, f. split; [right; exact Hy | auto].
    + exfalso. apply (N l). reflexivity.
  - intros _. split; [discriminate|]. left.
    exists (x :: l). split; [reflexivity|].
    exists x, field. split; [left; reflexivity | auto].
Qed.

Lemma differs_false key v resource :
  differs key v resource = Ok false -> ~ field_differs resource key v.
Proof.
  destruct v as [| b | z | s | l | d].
  - intros _ [N _]. apply N. reflexivity.
  - cbn. destruct (Py.getitem resource key) as [field|] eqn:G;
      [|discriminate]. intros H. injection H as H.
    apply negb_false_iff in H.
    intros [_ [(l & El & _) | (_ & f & Hg & He)]]; [discriminate|].
    congruence.
  - cbn. destruct (Py.getitem resource key) as [field|] eqn:G;
      [|discriminate]. intros H. injection H as H.
    apply negb_false_iff in H.
    intros [_ [(l & El & _) | (_ & f & Hg & He)]]; [discriminate|].
    congruence.
  - cbn. destruct (Py.getitem resource key) as [field|] eqn:G;
      [|discriminate]. intros H. injection H as H.
    apply negb_false_iff in H.
    intros [_ [(l & El & _) | (_ & f & Hg & He)]]; [discriminate|].
    congruence.
  - induction l as [|x l IH]; rewrite differs_list.
    + intros _ [_ [(l & El & y & f & Hy & _) | [N _]]].
      * injection El as <-. destruct Hy.
      * apply (N []). reflexivity.
    + destruct (Py.getitem resource key) as [field|] eqn:G; [|discriminate].
      destruct (Py.contains x field) as [[|]|] eqn:C; try discriminate.
      intros H [_ [(l0 & El & y & f & Hy & Hg & Hc) | [N _]]].
      * injection El as <-. destruct Hy as [<- | Hy].
        -- congruence.
        -- apply (IH H). split; [discriminate|]. left.
           exists l. split; [reflexivity|]. exists y, f. auto.
      * apply (N (x :: l)). reflexivity.
  - cbn. destruct (Py.getitem resource key) as [field|] eqn:G;
      [|discriminate]. intros H. injection H as H.
    apply negb_false_iff in H.
    intros [_ [(l & El & _) | (_ & f & Hg & He)]]; [discriminate|].
    congruence.
Qed.

Lemma differs_total key v resource :
  (v <> VNone ->
   exists field,
     Py.getitem resource key = Ok field /\
     forall l x, v = VList l -> In x l ->
                 exists b, Py.contains x field = Ok b) ->
  exists b, differs key v resource = Ok b.
Proof.
  intros H. destruct v as [| b | z | s | l | d].
  - exists false. reflexivity.
  - destruct H as (f & Hg & _); [discriminate|]. cbn. rewrite Hg. eauto.
  - destruct H as (f & Hg & _); [discriminate|]. cbn. rewrite Hg. eauto.
  - destruct H as (f & Hg & _); [discriminate|]. cbn. rewrite Hg. eauto.
  - destruct H as (f & Hg & Hc); [discriminate|].
    assert (Hc' : forall x, In x l -> exists b, Py.contains x f = Ok b)
      by (intros x Hx; apply (Hc l x eq_refl Hx)).
    clear Hc. induction l as [|x l IH]; rewrite differs_list.
    + eauto.
    + rewrite Hg. destruct (Hc' x (or_introl eq_refl)) as [[|] ->].
      * apply IH. intros y Hy. apply Hc'. right. exact Hy.
      * eauto.
  - destruct H as (f & Hg & _); [discriminate|]. cbn. rewrite Hg. eauto.
Qed.

Lemma is_diff_true data resource :
  is_diff data resource = Ok true ->
  exists key v, In (key, v) data /\ field_differs resource key v.
Proof.
  induction data as [|[key v] data IH]; cbn; [discriminate|].
  destruct (differs key v resource) as [[|]|] eqn:D; try discriminate.
  - intros _. exists key, v. split; [left; reflexivity|].
    apply differs_true. exact D.
  - intros H. destruct (IH H) as (k & w & Hin & Hd).
    exists k, w. split; [right; exact Hin | exact Hd].
Qed.

Lemma is_diff_false data resource :
  is_diff data resource = Ok false ->
  forall key v, In (key, v) data ->
    differs key v resource = Ok false.
Proof.
  induction data as [|[key v] data IH]; cbn; [intros _ k w []|].
  destruct (differs key v resource) as [[|]|] eqn:D; try discriminate.
  intros H k w [E | Hin].
  - injection E as <- <-. exact D.
  - apply IH; assumption.
Qed.

Lemma is_diff_total data resource :
  comparable data resource -> exists b, is_diff data resource = Ok b.
Proof.
  induction data as [|[key v] data IH]; intros Hc; cbn; [eauto|].
  destruct (differs_total key v resource) as [[|] ->].
  - intros Hv. apply (Hc key v); [left; reflexivity | exact Hv].
  - eauto.
  - apply IH. intros k w Hin. apply Hc. right. exact Hin.
Qed.

(** C4, as amended: when every managed key of the body can be compared
    with the resource, [is_diff] answers, and it answers true exactly when
    some key of the body carries a value other than [None] that is a list
    with an element not contained in the resource's field, or a scalar
    unequal to the field.  So ["a","b"] against ["a","b","c"] is no diff,
    and ["a","d"] against ["a","b","c"] is one. *)
Theorem is_diff_spec :
  (forall data resource,
      comparable data resource ->
      exists b,
        is_diff data resource = Ok b /\
        (b = true <->
         exists key v, In (key, v) data /\ field_differs resource key v)) /\
  (forall key,
      is_diff [(key, VList [VStr "a"; VStr "b"])]
              (VDict [(key, VList [VStr "a"; VStr "b"; VStr "c"])])
      = Ok false) /\
  (forall key,
      is_diff [(key, VList [VStr "a"; VStr "d"])]
              (VDict [(key, VList [VStr "a"; VStr "b"; VStr "c"])])
      = Ok true).
Proof.
  split; [|split].
  - intros data resource Hc.
    destruct (is_diff_total data resource Hc) as [b Hb].
    exists b. split; [exact Hb|]. split.
    + intros ->. apply is_diff_true. exact Hb.
    + intros (key & v & Hin & Hd). destruct b; [reflexivity|].
      exfalso. apply (differs_false key v resource); [|exact Hd].
      apply (is_diff_false data resource Hb). exact Hin.
  - intros key. cbn. rewrite String.eqb_refl. reflexivity.
  - intros key. cbn. rewrite String.eqb_refl. reflexivity.
Qed.


(** *** What the calls below [get_result] do to the state *)

Section Steps.

Variable P : state -> state -> Prop.
Hypothesis P_refl : forall s, P s s.
Hypothesis P_trans : forall s t u, P s t -> P t u -> P s u.

Lemma steps_ret {A} (a : A) : steps P (ret a).
Proof. intros s. apply P_refl. Qed.

Lemma steps_raise {A} e : steps P (@raise R A e).
Proof. intros s. apply P_refl. Qed.

Lemma steps_lift {A} (r : checked A) : steps P (lift r).
Proof. destruct r; [apply steps_ret | apply steps_raise]. Qed.

Lemma steps_bind {A B} (c : M A) (k : A -> M B) :
  steps P c -> (forall a, steps P (k a)) -> steps P (bind c k).
Proof.
  intros Hc Hk s. unfold bind. specialize (Hc s).
  destruct (c s) as [[a | e | msg info | r] s1]; cbn in *; auto.
  eapply P_trans; [exact Hc | apply Hk].
Qed.

Lemma steps_if {A} (b : bool) (c d : M A) :
  steps P c -> steps P d -> steps P (if b then c else d).
Proof. destruct b; auto. Qed.

Lemma query_list_steps self :
  (forall path, steps P (api_query self path "GET" VNone)) ->
  steps P (query_list self).
Proof.
  intros Hapi. unfold query_list. apply steps_bind; [apply Hapi|].
  intros resources. apply steps_if; [apply steps_lift | apply steps_ret].
Qed.

Lemma query_rec_steps self :
  (forall path, steps P (api_query self path "GET" VNone)) ->
  forall depth rid, steps P (query_rec depth self rid).
Proof.
  intros Hapi. induction depth as [|depth IH]; intros rid.
  - apply steps_raise.
  - assert (ById : forall rid',
               steps P
                 (suffix <- lift (id_suffix rid') ;;
                  resource <- api_query self (resource_path self ++ suffix)
                                "GET" VNone ;;
                  if Py.truthy resource
                  then lift (Py.getitem resource
                               (ressource_result_key_singular self))
                  else ret (VDict []))).
    { intros rid'. apply steps_bind; [apply steps_lift|]. intros suffix.
      apply steps_bind; [apply Hapi|]. intros resource.
      apply steps_if; [apply steps_lift | apply steps_ret]. }
    destruct rid; try apply ById.
    cbn [query_rec]. apply steps_bind; [apply query_list_steps, Hapi|].
    intros resources. apply steps_bind; [apply steps_lift|].
    intros items. induction items as [|resource rest IHi].
    + apply steps_ret.
    + apply steps_bind; [apply steps_lift|]. intros name.
      apply steps_if; [|exact IHi].
      apply steps_if; [|apply steps_ret].
      apply steps_bind; [apply steps_lift|]. intros rid. apply IH.
Qed.

End Steps.












(** The relations the calls are followed with. *)

Lemma same_result_refl s : same_result s s.
Proof. reflexivity. Qed.

Lemma same_result_trans s t u :
  same_result s t -> same_result t u -> same_result s u.
Proof. unfold same_result. congruence. Qed.



Lemma fetches_app evs evs' :
  fetches (evs ++ evs') = (fetches evs ++ fetches evs')%list.
Proof.
  induction evs as [|[rq resp | d] evs IH]; cbn; congruence.
Qed.

Lemma only_reads_refl s : only_reads s s.
Proof.
  exists []. rewrite app_nil_r. split; [reflexivity|]. intros rq resp [].
Qed.

Lemma only_reads_trans s t u :
  only_reads s t -> only_reads t u -> only_reads s u.
Proof.
  intros (e1 & H1 & G1) (e2 & H2 & G2). exists (e1 ++ e2)%list. split.
  - rewrite H2, H1, app_assoc. reflexivity.
  - intros rq resp Hin. rewrite fetches_app in Hin.
    apply in_app_or in Hin. destruct Hin; eauto.
Qed.

(** Every request a call of [api_query] sends is the one it was asked
    to send. *)
Lemma api_query_requests self path method data s :
  exists evs,
    trace (snd (api_query self path method data s)) = (trace s ++ evs)%list /\
    forall rq resp,
      In (rq, resp) (fetches evs) ->
      rq = api_request self path method data.
Proof.
  destruct (api_query_effect self path method data s)
    as (evs & Ht & Ha & _).
  exists evs. split; [exact Ht|]. intros rq resp Hin.
  apply In_nth_error in Hin. destruct Hin as [a Hn].
  destruct (attempts_fetches _ _ _ _ _ Ha _ _ _ Hn) as [E _]. exact E.
Qed.

Lemma api_query_same_result self path method data :
  steps same_result (api_query self path method data).
Proof.
  intros s. destruct (api_query_effect self path method data s)
    as (evs & _ & _ & _ & H & _). exact H.
Qed.

Lemma api_query_only_reads self path data :
  steps only_reads (api_query self path "GET" data).
Proof.
  intros s. destruct (api_query_requests self path "GET" data s)
    as (evs & Ht & Hq).
  exists evs. split; [exact Ht|]. intros rq resp Hin.
  rewrite (Hq rq resp Hin). reflexivity.
Qed.

Lemma query_same_result self rid : steps same_result (query self rid).
Proof.
  apply query_rec_steps;
    [exact same_result_refl | exact same_result_trans |].
  intros path. apply api_query_same_result.
Qed.

Lemma query_only_reads self rid : steps only_reads (query self rid).
Proof.
  apply query_rec_steps;
    [exact only_reads_refl | exact only_reads_trans |].
  intros path. apply api_query_only_reads.
Qed.

Lemma hands_over_quiet {A} (c : M A) : quiet c -> hands_over c.
Proof.
  intros H s r E. specialize (H s). rewrite E in H. destruct H.
Qed.



Lemma steps_modify P f :
  (forall s, P s {| world := world s; draws := draws s; trace := trace s;
                    st_result := f (st_result s) |}) ->
  steps P (modify_result f).
Proof. intros H s. apply H. Qed.










(** *** The echo of the API configuration (C9) *)


(** *** Check mode (C5) *)

Lemma bind_ext {A B} (c c' : M A) (k k' : A -> M B) s :
  c s = c' s -> (forall a t, k a t = k' a t) -> bind c k s = bind c' k' s.
Proof.
  intros Hc Hk. unfold bind. rewrite Hc.
  destruct (c' s) as [[a | e | msg info | r] s1]; auto.
Qed.

(** The reads of the engine do not look at the check-mode flag. *)
Lemma query_rec_check_mode b self :
  forall depth rid s,
    query_rec depth (set_check_mode b self) rid s
    = query_rec depth self rid s.
Proof.
  induction depth as [|depth IH]; intros rid s; [reflexivity|].
  destruct rid; try reflexivity.
  cbn [query_rec]. apply bind_ext; [reflexivity|]. intros resources t.
  apply bind_ext; [reflexivity|]. intros items.
  induction items as [|resource rest IHi]; intros t'; [reflexivity|].
  apply bind_ext; [reflexivity|]. intros name u.
  change (params_get (module (set_check_mode b self))
            (resource_key_name (set_check_mode b self)))
    with (params_get (module self) (resource_key_name self)).
  destruct (Py.eq name (params_get (module self) (resource_key_name self)));
    [|apply IHi].
  change (resource_get_details (set_check_mode b self))
    with (resource_get_details self).
  destruct (resource_get_details self); [|reflexivity].
  apply bind_ext; [reflexivity|]. intros rid v. apply IH.
Qed.

Lemma same_report_refl s : same_report s s.
Proof. reflexivity. Qed.

Lemma same_report_trans s t u :
  same_report s t -> same_report t u -> same_report s u.
Proof. unfold same_report. congruence. Qed.

Lemma same_report_of_same_result {A} (c : M A) :
  steps same_result c -> steps same_report c.
Proof.
  intros H s. unfold same_report, report. rewrite (H s). reflexivity.
Qed.

Ltac report_bind :=
  apply (steps_bind same_report same_report_trans).

(** The tail of [create], [update] and [absent] after the diff has been
    recorded leaves the report alone, in either mode. *)
Lemma create_tail_same_report self data :
  steps same_report
    (resource <-
       (if negb (check_mode (module self))
        then api_query self (resource_path self) "POST" (VDict data)
        else ret (VDict [])) ;;
     if Py.truthy resource
     then lift (Py.get resource (ressource_result_key_singular self))
     else ret (VDict [])).
Proof.
  report_bind.
  { apply steps_if; [|apply steps_ret, same_report_refl].
    apply same_report_of_same_result, api_query_same_result. }
  intros resource.
  apply steps_if; [apply steps_lift | apply steps_ret];
    apply same_report_refl.
Qed.

Lemma update_tail_same_report self resource data :
  steps same_report
    (if negb (check_mode (module self)) then
       rid <- lift (Py.getitem resource (resource_key_id self)) ;;
       api_query self (resource_path self ++ "/" ++ py_str rid)
         (resource_update_method self) (VDict data) ;;'
       rid' <- lift (Py.getitem resource (resource_key_id self)) ;;
       query self rid'
     else ret resource).
Proof.
  apply steps_if; [|apply steps_ret, same_report_refl].
  report_bind; [apply steps_lift, same_report_refl|]. intros rid.
  report_bind; [apply same_report_of_same_result, api_query_same_result|].
  intros _.
  report_bind; [apply steps_lift, same_report_refl|]. intros rid'.
  apply same_report_of_same_result, query_same_result.
Qed.

Lemma absent_tail_same_report self resource :
  steps same_report
    ((if negb (check_mode (module self)) then
        rid <- lift (Py.getitem resource (resource_key_id self)) ;;
        api_query self (resource_path self ++ "/" ++ py_str rid)
          "DELETE" VNone ;;'
        ret tt
      else ret tt) ;;'
     @get_result R unit self resource).
Proof.
  report_bind; [|intros _ s; reflexivity].
  apply steps_if; [|apply steps_ret, same_report_refl].
  report_bind; [apply steps_lift, same_report_refl|]. intros rid.
  report_bind; [apply same_report_of_same_result, api_query_same_result|].
  intros _. apply steps_ret, same_report_refl.
Qed.

Lemma bind_lift_ok {A B} (a : A) (k : A -> M B) s :
  bind (lift (Ok a)) k s = k a s.
Proof. reflexivity. Qed.

Lemma bind_lift_err {A B} e (k : A -> M B) s :
  bind (lift (Err e)) k s = (Raise e, s).
Proof. reflexivity. Qed.

Lemma bind_ret {A B} (a : A) (k : A -> M B) s :
  bind (ret a) k s = k a s.
Proof. reflexivity. Qed.

Lemma bind_modify {B} f (k : unit -> M B) s :
  bind (modify_result f) k s
  = k tt {| world := world s; draws := draws s; trace := trace s;
            st_result := f (st_result s) |}.
Proof. reflexivity. Qed.

Lemma bind_run {A B} (c : M A) (k : A -> M B) s :
  bind c k s =
  match fst (c s) with
  | Ret a => k a (snd (c s))
  | Raise e => (Raise e, snd (c s))
  | FailJson msg info => (FailJson msg info, snd (c s))
  | ExitJson r => (ExitJson r, snd (c s))
  end.
Proof.
  unfold bind. destruct (c s) as [[a | e | msg info | r] s1]; reflexivity.
Qed.

Lemma create_report b self s :
  report (snd (create (set_check_mode b self) s))
  = (true, [], build_data (module self) (resource_create_param_keys self)).
Proof.
  unfold create. cbv zeta. unfold set_changed, set_diff.
  rewrite !bind_modify.
  match goal with
  | |- report (snd (?c ?st)) = _ =>
      transitivity (report st);
        [exact (create_tail_same_report (set_check_mode b self) _ st)|]
  end.
  reflexivity.
Qed.

Lemma update_report b self resource s :
  report (snd (update (set_check_mode b self) resource s))
  = report (snd (update self resource s)).
Proof.
  unfold update. cbv zeta.
  change (build_data (module (set_check_mode b self))
            (resource_update_param_keys (set_check_mode b self)))
    with (build_data (module self) (resource_update_param_keys self)).
  set (data := build_data (module self) (resource_update_param_keys self)).
  destruct (is_diff data resource) as [[|]|].
  - rewrite !bind_lift_ok. cbv beta iota. unfold set_changed, set_diff.
    rewrite !bind_modify.
    destruct (Py.dict_copy resource) as [before|].
    + rewrite !bind_lift_ok, !bind_modify.
      match goal with
      | |- report (snd (_ ?st)) = report (snd (_ ?st)) =>
          transitivity (report st);
            [ exact (update_tail_same_report (set_check_mode b self)
                       resource data st)
            | symmetry;
              exact (update_tail_same_report self resource data st) ]
      end.
    + rewrite !bind_lift_err. reflexivity.
  - rewrite !bind_lift_ok. reflexivity.
  - rewrite !bind_lift_err. reflexivity.
Qed.

Lemma bind_assoc {A B C} (c : M A) (k : A -> M B) (h : B -> M C) s :
  bind (bind c k) h s = bind c (fun a => bind (k a) h) s.
Proof.
  unfold bind. destruct (c s) as [[a | e | msg info | r] s1]; reflexivity.
Qed.

Lemma absent_report b self s :
  report (snd (absent (set_check_mode b self) s))
  = report (snd (absent self s)).
Proof.
  unfold absent. rewrite !(bind_run (query _ VNone)).
  unfold query. rewrite query_rec_check_mode.
  destruct (query_rec recursion_limit self VNone s)
    as [[resource | e | msg info | r] s1]; cbn [fst snd];
    [ | reflexivity | reflexivity | reflexivity ].
  destruct (Py.truthy resource).
  - unfold set_changed, set_diff.
    rewrite !bind_assoc, !bind_modify, !bind_assoc.
    destruct (Py.dict_copy resource) as [before|].
    + rewrite !bind_lift_ok, !bind_assoc, !bind_modify.
      match goal with
      | |- report (snd (_ ?st)) = report (snd (_ ?st)) =>
          transitivity (report st);
            [ exact (absent_tail_same_report (set_check_mode b self)
                       resource st)
            | symmetry;
              exact (absent_tail_same_report self resource st) ]
      end.
    + rewrite !bind_lift_err. reflexivity.
  - rewrite !bind_ret. reflexivity.
Qed.

Lemma same_trace_refl s : same_trace s s.
Proof. reflexivity. Qed.

Lemma same_trace_trans s t u :
  same_trace s t -> same_trace t u -> same_trace s u.
Proof. unfold same_trace. congruence. Qed.

Ltac trace_bind := apply (steps_bind same_trace same_trace_trans).
Ltac reads_bind := apply (steps_bind only_reads only_reads_trans).

Lemma only_reads_of_same_trace {A} (c : M A) :
  steps same_trace c -> steps only_reads c.
Proof.
  intros H s. exists []. rewrite app_nil_r. split; [apply H|].
  intros rq resp [].
Qed.

Lemma create_dry_same_trace self :
  steps same_trace (create (set_check_mode true self)).
Proof.
  unfold create. cbv zeta.
  trace_bind; [intros s; reflexivity|]. intros _.
  trace_bind; [intros s; reflexivity|]. intros _.
  trace_bind.
  { cbn [set_check_mode module check_mode negb].
    apply steps_ret, same_trace_refl. }
  intros resource.
  apply steps_if; [apply steps_lift | apply steps_ret];
    apply same_trace_refl.
Qed.

Lemma update_dry_same_trace self resource :
  steps same_trace (update (set_check_mode true self) resource).
Proof.
  unfold update. cbv zeta.
  trace_bind; [apply steps_lift, same_trace_refl|]. intros diff.
  apply steps_if; [|apply steps_ret, same_trace_refl].
  trace_bind; [intros s; reflexivity|]. intros _.
  trace_bind; [apply steps_lift, same_trace_refl|]. intros before.
  trace_bind; [intros s; reflexivity|]. intros _.
  cbn [set_check_mode module check_mode negb].
  apply steps_ret, same_trace_refl.
Qed.

Lemma absent_dry_only_reads self :
  steps only_reads (absent (set_check_mode true self)).
Proof.
  unfold absent.
  reads_bind; [apply query_only_reads|]. intros resource.
  apply only_reads_of_same_trace.
  trace_bind; [|intros _ s; reflexivity].
  apply steps_if; [|apply steps_ret, same_trace_refl].
  trace_bind; [intros s; reflexivity|]. intros _.
  trace_bind; [apply steps_lift, same_trace_refl|]. intros before.
  trace_bind; [intros s; reflexivity|]. intros _.
  cbn [set_check_mode module check_mode negb].
  apply steps_ret, same_trace_refl.
Qed.

(** C5: in check mode [create] and [update] send no request at all and
    [absent] sends read requests only, while the changed flag and the diff
    they record are those that the same call records out of check mode. *)
Theorem dry_run_writes_nothing self resource s :
  let dry := set_check_mode true self in
  let wet := set_check_mode false self in
  (trace (snd (create dry s)) = trace s /\
   report (snd (create dry s)) = report (snd (create wet s))) /\
  (trace (snd (update dry resource s)) = trace s /\
   report (snd (update dry resource s))
   = report (snd (update wet resource s))) /\
  ((exists evs,
       trace (snd (absent dry s)) = (trace s ++ evs)%list /\
       forall rq resp, In (rq, resp) (fetches evs) -> is_write rq = false) /\
   report (snd (absent dry s)) = report (snd (absent wet s))).
Proof.
  cbv zeta. split; [split | split; [split | split]].
  - apply create_dry_same_trace.
  - rewrite !create_report. reflexivity.
  - apply update_dry_same_trace.
  - rewrite !update_report. reflexivity.
  - apply absent_dry_only_reads.
  - rewrite !absent_report. reflexivity.
Qed.

(** A call of [api_query] that returns has sent at least one request. *)
Lemma api_query_ret_sends self path method data s v :
  fst (api_query self path method data s) = Ret v ->
  forall evs,
    trace (snd (api_query self path method data s)) = (trace s ++ evs)%list ->
    fetches evs <> [].
Proof.
  unfold api_query. rewrite bind_run, api_loop_eq. unfold Py.range.
  destruct (Z.to_nat (api_retries (module self))) as [|m].
  - cbn. discriminate.
  - cbn [seq map]. rewrite retry_loop_cons. cbv zeta.
    match goal with
    | |- context [EvFetch ?rq ?resp] => set (e := EvFetch rq resp)
    end.
    assert (G : forall (o : outcome value) s',
               (exists evs', trace s' = ((trace s ++ [e]) ++ evs')%list) ->
               forall evs, trace s' = (trace s ++ evs)%list ->
                           fetches evs <> []).
    { intros o s' [evs' E] evs E'. rewrite E, <- app_assoc in E'.
      apply app_inv_head in E'. subst evs. subst e. cbn. discriminate. }
    destruct (negb _).
    + cbn [fst snd]. intros _. rewrite classify_state.
      apply (G (Ret v)). exists []. rewrite app_nil_r. reflexivity.
    + destruct (Qle_bool _ _).
      * match goal with
        | |- context [retry_loop ?r ?mm ?j ?l ?i ?st] =>
            destruct (retry_loop r mm j l i st) as [o s'] eqn:L
        end.
        apply retry_loop_attempts in L.
        destruct L as (evs' & Ht & _). cbn [trace] in Ht.
        intros _.
        assert (E : trace (snd match o with
                               | Ret a => classify method path a s'
                               | Raise e0 => (Raise e0, s')
                               | FailJson msg info => (FailJson msg info, s')
                               | ExitJson r => (ExitJson r, s')
                               end) = trace s').
        { destruct o; try reflexivity. rewrite classify_state. reflexivity. }
        cbn [fst snd]. rewrite E. apply (G (Ret v)).
        exists (EvSleep (backoff (api_retry_max_delay (module self))
                           (Z.of_nat 0) (jitter (draws s))) :: evs').
        rewrite Ht. rewrite <- !app_assoc. reflexivity.
      * cbn. discriminate.
Qed.

(** *** [update] (C6) *)

Lemma is_diff_true_dict data resource :
  is_diff data resource = Ok true -> exists d, resource = VDict d.
Proof.
  intros H. destruct (is_diff_true data resource H) as (key & v & _ & Hd).
  assert (G : exists field, Py.getitem resource key = Ok field).
  { destruct Hd as [_ [(l & _ & x & f & _ & Hg & _) | (_ & f & Hg & _)]];
      eauto. }
  destruct G as [f G]. destruct resource; try discriminate. eauto.
Qed.

(** C6: when [is_diff] holds, [update] sets [changed], records the
    current resource as [diff.before] and the resource merged with the
    body as [diff.after]; out of check mode it then calls the API with the
    update method on [resource_path/<id>] with the body, drops what that
    call returns, and returns what the query by id returns; in check mode
    it returns the resource.  When [is_diff] does not hold it returns the
    resource and leaves the state, [changed] included, as it was. *)
Theorem update_spec self resource s :
  let new := build_data (module self) (resource_update_param_keys self) in
  (is_diff new resource = Ok false ->
   update self resource s = (Ret resource, s)) /\
  (is_diff new resource = Ok true ->
   exists before,
     resource = VDict before /\
     let s1 := with_result (record_update before new (st_result s)) s in
     (check_mode (module self) = true ->
      update self resource s = (Ret resource, s1)) /\
     (check_mode (module self) = false ->
      forall rid,
        Py.getitem resource (resource_key_id self) = Ok rid ->
        let path := resource_path self ++ "/" ++ py_str rid in
        let write :=
          api_query self path (resource_update_method self) (VDict new) in
        update self resource s = (write ;;' query self rid) s1 /\
        exists evs,
          trace (snd (write s1)) = (trace s1 ++ evs)%list /\
          (forall v, fst (write s1) = Ret v -> fetches evs <> []) /\
          forall rq resp,
            In (rq, resp) (fetches evs) ->
            method rq = resource_update_method self /\
            url rq = api_endpoint (module self) ++ path /\
            data rq = VDict new)).
Proof.
  cbv zeta. split.
  - intros H. unfold update. cbv zeta. rewrite H. reflexivity.
  - intros H. destruct (is_diff_true_dict _ _ H) as [before ->].
    exists before. split; [reflexivity|]. split.
    + intros Hc. unfold update. cbv zeta. rewrite H, Hc. reflexivity.
    + intros Hc rid Hrid. split.
      * unfold update. cbv zeta. rewrite H, Hc, Hrid. reflexivity.
      * match goal with
        | |- context [api_query ?a ?b ?c ?d ?st] =>
            destruct (api_query_requests a b c d st) as (evs & Ht & Hq)
        end.
        exists evs. split; [exact Ht|]. split.
        -- intros v Hv. exact (api_query_ret_sends _ _ _ _ _ v Hv evs Ht).
        -- intros rq resp Hin. rewrite (Hq rq resp Hin).
           split; [reflexivity|]. split; reflexivity.
Qed.

(** *** [absent] (C7) *)

Lemma get_result_eq {A} self resource s :
  @get_result R A self resource s
  = (ExitJson {| changed := changed (st_result s); payload := resource;
                 diff_before := diff_before (st_result s);
                 diff_after := diff_after (st_result s);
                 vultr_api := vultr_api (st_result s) |},
     with_result {| changed := changed (st_result s); payload := resource;
                    diff_before := diff_before (st_result s);
                    diff_after := diff_after (st_result s);
                    vultr_api := vultr_api (st_result s) |} s).
Proof. reflexivity. Qed.


(** *** Equality of a value with itself *)






(** *** The body built from the parameters *)

Lemma lookup_setitem_same d k v : Py.lookup k (Py.setitem d k v) = Some v.
Proof.
  induction d as [|[k0 v0] d IH]; cbn.
  - rewrite String.eqb_refl. reflexivity.
  - destruct (String.eqb k k0) eqn:E; cbn.
    + rewrite String.eqb_refl. reflexivity.
    + rewrite E. exact IH.
Qed.

Lemma lookup_setitem_other d k k' v :
  k' <> k -> Py.lookup k' (Py.setitem d k v) = Py.lookup k' d.
Proof.
  intros N. induction d as [|[k0 v0] d IH]; cbn.
  - apply String.eqb_neq in N. rewrite N. reflexivity.
  - destruct (String.eqb k k0) eqn:E; cbn.
    + apply String.eqb_eq in E. subst k0.
      apply String.eqb_neq in N. rewrite N. reflexivity.
    + destruct (String.eqb k' k0); [reflexivity | exact IH].
Qed.

Lemma in_setitem d k v k' v' :
  In (k', v') (Py.setitem d k v) -> (k' = k /\ v' = v) \/ In (k', v') d.
Proof.
  induction d as [|[k0 v0] d IH]; cbn.
  - intros [E | []]. injection E as <- <-. auto.
  - destruct (String.eqb k k0) eqn:E; cbn.
    + intros [E' | Hin]; [injection E' as <- <-; auto | auto].
    + intros [E' | Hin]; [auto | destruct (IH Hin); auto].
Qed.

Lemma build_data_acc m keys :
  forall acc,
    (forall k v, In (k, v) acc -> v = params_get m k) ->
    let d := fold_left
               (fun data param => Py.setitem data param (params_get m param))
               keys acc in
    (forall k v, In (k, v) d ->
                 v = params_get m k /\
                 (In k keys \/ In (k, v) acc)) /\
    (forall k, In k keys -> Py.lookup k d = Some (params_get m k)) /\
    (forall k, Py.lookup k acc = Some (params_get m k) ->
               Py.lookup k d = Some (params_get m k)).
Proof.
  induction keys as [|p keys IH]; intros acc Hacc; cbn.
  - split; [|split].
    + intros k v Hin. split; [apply Hacc; exact Hin | right; exact Hin].
    + intros k [].
    + auto.
  - destruct (IH (Py.setitem acc p (params_get m p))) as (H1 & H2 & H3).
    { intros k v Hin. apply in_setitem in Hin.
      destruct Hin as [[-> ->] | Hin]; [reflexivity | apply Hacc; exact Hin]. }
    split; [|split].
    + intros k v Hin. destruct (H1 k v Hin) as [Ev [Hk | Hin']].
      * split; [exact Ev | left; right; exact Hk].
      * split; [exact Ev|]. apply in_setitem in Hin'.
        destruct Hin' as [[-> _] | Hin']; [left; left; reflexivity | auto].
    + intros k [<- | Hk].
      * apply H3. apply lookup_setitem_same.
      * apply H2. exact Hk.
    + intros k Hl. apply H3.
      destruct (String.eqb k p) eqn:E.
      * apply String.eqb_eq in E. subst p. apply lookup_setitem_same.
      * apply String.eqb_neq in E.
        rewrite lookup_setitem_other; [exact Hl | exact E].
Qed.

Lemma build_data_in m keys k v :
  In (k, v) (build_data m keys) -> In k keys /\ v = params_get m k.
Proof.
  intros Hin.
  destruct (build_data_acc m keys [] (fun _ _ F => match F with end))
    as (H1 & _ & _).
  destruct (H1 k v Hin) as [Ev [Hk | []]]. auto.
Qed.

Lemma build_data_lookup m keys k :
  In k keys -> Py.lookup k (build_data m keys) = Some (params_get m k).
Proof.
  intros Hk.
  destruct (build_data_acc m keys [] (fun _ _ F => match F with end))
    as (_ & H2 & _).
  apply H2. exact Hk.
Qed.

(** *** A resource that holds what was written *)



(** *** A remote that stores what is written and does not drift (C8) *)








Lemma bind_ret_inv {A B} (c : M A) (k : A -> M B) s b s' :
  bind c k s = (Ret b, s') ->
  exists a, fst (c s) = Ret a /\ k a (snd (c s)) = (Ret b, s').
Proof.
  unfold bind. destruct (c s) as [[a | e | msg info | r] s1]; cbn;
    try discriminate. eauto.
Qed.







End Properties.

(** *** Runs of the client against a scripted transport *)



(** A run in which every one of the five attempts is answered 429: the
    call ends in [fail_json]. *)
Lemma api_query_classification_witness :
  fst (api_query (R := scripted 0) (dns_domain false) "/domains" "GET" VNone
         (init_state (R := scripted 0) (dns_domain false)
            (repeat (reply 429 None) 5) 0))
  = FailJson (failure_msg "GET" "/domains") (reply 429 None).
Proof.
  refine (proj2 (proj2 (proj2 (proj2
    (api_query_classification (R := scripted 0) (dns_domain false)
       "/domains" "GET" VNone
       (init_state (R := scripted 0) (dns_domain false)
          (repeat (reply 429 None) 5) 0)
       (reply 429 None)
       (snd (api_loop (R := scripted 0) (dns_domain false)
               "/domains" "GET" VNone
               (init_state (R := scripted 0) (dns_domain false)
                  (repeat (reply 429 None) 5) 0)))
       _)))) eq_refl).
  vm_compute. reflexivity.
Defined.

(** *** Runs of the diff predicate *)

(** C4 as stated fails: with the body [{a: 1, b: 2}] and the resource
    [{b: 3}] the key [b] carries a scalar unequal to the field, yet
    [is_diff] does not answer true: it raises [KeyError] at [a]. *)
Lemma is_diff_raises_before_answering :
  ~ (is_diff [("a", VInt 1); ("b", VInt 2)] (VDict [("b", VInt 3)]) = Ok true
     <->
     exists key v,
       In (key, v) [("a", VInt 1); ("b", VInt 2)] /\
       field_differs (VDict [("b", VInt 3)]) key v).
Proof.
  intros [_ H].
  assert (E : is_diff [("a", VInt 1); ("b", VInt 2)] (VDict [("b", VInt 3)])
              = Ok true).
  { apply H. exists "b", (VInt 2). split; [right; left; reflexivity|].
    split; [discriminate|]. right. split; [intros; discriminate|].
    exists (VInt 3). split; reflexivity. }
  vm_compute in E. discriminate.
Qed.

(** The end-to-end scenario of the specification: the body [{domain}]
    against a resource with the same domain is no diff. *)
Lemma is_diff_spec_witness :
  exists b,
    is_diff [("domain", VStr "example.com")]
            (VDict [("domain", VStr "example.com");
                    ("ip", VStr "10.0.0.1"); ("id", VStr "x")]) = Ok b /\
    (b = true <->
     exists key v,
       In (key, v) [("domain", VStr "example.com")] /\
       field_differs (VDict [("domain", VStr "example.com");
                             ("ip", VStr "10.0.0.1"); ("id", VStr "x")])
                     key v).
Proof.
  apply (proj1 is_diff_spec).
  intros key v [E | []] _. injection E as <- <-.
  exists (VStr "example.com"). split; [reflexivity|].
  intros l x El. discriminate.
Defined.


(** *** Runs of the engine against the one-zone DNS service *)

(** A stale zone is updated: the PATCH goes out and the query by id that
    follows it brings back the stored record. *)
Lemma update_spec_witness :
  fst (update (R := zone_remote) (dns_zone false)
         (VDict (zone_record "10.9.9.9"))
         (init_state (R := zone_remote) (dns_zone false) Stale 0))
  = Ret (VDict (zone_record "10.0.0.1")).
Proof.
  destruct (proj2 (update_spec (R := zone_remote) (dns_zone false)
                     (VDict (zone_record "10.9.9.9"))
                     (init_state (R := zone_remote) (dns_zone false) Stale 0))
              eq_refl)
    as (before & Eb & _ & Hwet).
  destruct (Hwet eq_refl (VStr "example.com") eq_refl) as [E _].
  rewrite E. vm_compute. reflexivity.
Defined.



(** In check mode nothing is written when the zone is to be removed, and
    the report is that of the real run. *)
Lemma dry_run_writes_nothing_witness :
  forallb (fun e => negb (is_write (fst e)))
    (fetches (trace (snd (absent (R := zone_remote) (dns_domain true)
                            (init_state (R := zone_remote) (dns_domain true)
                               Fresh 0)))))
  = true /\
  report (snd (absent (R := zone_remote) (dns_domain true)
                 (init_state (R := zone_remote) (dns_domain true) Fresh 0)))
  = report (snd (absent (R := zone_remote) (dns_domain false)
                   (init_state (R := zone_remote) (dns_domain false)
                      Fresh 0))).
Proof.
  split; [vm_compute; reflexivity|].
  exact (proj2 (proj2 (proj2
           (dry_run_writes_nothing (R := zone_remote) (dns_domain true)
              VNone
              (init_state (R := zone_remote) (dns_domain true) Fresh 0))))).
Defined.

(** *** The one-zone DNS service is faithful *)






(** * Further properties of the client and of the engine *)

Section Further.

Context {R : Remote}.

(** *** The retry loop, beyond the bound *)





(** X2: with [api_retries] zero or negative the loop body never runs:
    [api_query] sends nothing and raises [UnboundLocalError] for [info],
    and so does every call of [present] and [absent], whose first step is
    a query. *)
Theorem no_retries_no_call self :
  api_retries (module self) <= 0 ->
  forall s,
    (forall path method data,
        fst (api_query self path method data s)
        = Raise (UnboundLocalError "info") /\
        trace (snd (api_query self path method data s)) = trace s) /\
    (fst (present self s) = Raise (UnboundLocalError "info") /\
     trace (snd (present self s)) = trace s) /\
    (fst (absent self s) = Raise (UnboundLocalError "info") /\
     trace (snd (absent self s)) = trace s).
Proof.
  intros Hr s.
  assert (A : forall path method data t,
             api_query self path method data t
             = (Raise (UnboundLocalError "info"),
                {| world := world t; draws := S (draws t);
                   trace := trace t; st_result := st_result t |})).
  { intros path method data t. unfold api_query.
    rewrite bind_run, api_loop_eq. unfold Py.range.
    replace (Z.to_nat (api_retries (module self))) with 0%nat by lia.
    reflexivity. }
  assert (Q' : forall depth,
             query_rec (S depth) self VNone s
             = (Raise (UnboundLocalError "info"),
                {| world := world s; draws := S (draws s);
                   trace := trace s; st_result := st_result s |})).
  { intros depth. cbn [query_rec]. unfold query_list.
    rewrite bind_assoc, bind_run, A. reflexivity. }
  assert (Q : query self VNone s
              = (Raise (UnboundLocalError "info"),
                 {| world := world s; draws := S (draws s);
                    trace := trace s; st_result := st_result s |}))
    by exact (Q' 999%nat).
  clear Q'.
  split; [|split].
  - intros path method data. rewrite A. split; reflexivity.
  - unfold present. rewrite bind_run, Q. split; reflexivity.
  - unfold absent. rewrite bind_run, Q. split; reflexivity.
Qed.





(** *** What the engine sends *)

Section Sends.

Variable Q : request -> Prop.

Lemma sends_only_refl s : sends_only Q s s.
Proof.
  exists []. rewrite app_nil_r. split; [reflexivity|]. intros rq resp [].
Qed.

Lemma sends_only_trans s t u :
  sends_only Q s t -> sends_only Q t u -> sends_only Q s u.
Proof.
  intros (e1 & H1 & G1) (e2 & H2 & G2). exists (e1 ++ e2)%list. split.
  - rewrite H2, H1, app_assoc. reflexivity.
  - intros rq resp Hin. rewrite fetches_app in Hin.
    apply in_app_or in Hin. destruct Hin; eauto.
Qed.

Lemma sends_only_same_trace {A} (c : M A) :
  steps same_trace c -> steps (sends_only Q) c.
Proof.
  intros H s. exists []. rewrite app_nil_r. split; [apply H|].
  intros rq resp [].
Qed.

Lemma api_query_sends self path method data :
  Q (api_request self path method data) ->
  steps (sends_only Q) (api_query self path method data).
Proof.
  intros HQ s. destruct (api_query_requests self path method data s)
    as (evs & Ht & Hq).
  exists evs. split; [exact Ht|]. intros rq resp Hin.
  rewrite (Hq rq resp Hin). exact HQ.
Qed.

Variable self : AnsibleVultr.
Hypothesis Qget : forall path, Q (api_request self path "GET" VNone).

Lemma query_sends rid : steps (sends_only Q) (query self rid).
Proof.
  apply query_rec_steps; [exact sends_only_refl | exact sends_only_trans |].
  intros path. apply api_query_sends, Qget.
Qed.

Ltac sends_bind := apply (steps_bind (sends_only Q) sends_only_trans).
Ltac sends_quiet := apply sends_only_same_trace; intros s; reflexivity.

Lemma create_sends :
  (forall data, Q (api_request self (resource_path self) "POST" data)) ->
  steps (sends_only Q) (create self).
Proof.
  intros Qpost. unfold create. cbv zeta.
  sends_bind; [sends_quiet|]. intros _.
  sends_bind; [sends_quiet|]. intros _.
  sends_bind.
  { apply steps_if; [apply api_query_sends, Qpost
                    | apply steps_ret, sends_only_refl]. }
  intros resource.
  apply steps_if; [apply steps_lift | apply steps_ret];
    apply sends_only_refl.
Qed.

Lemma update_sends resource :
  (forall path data,
      Q (api_request self path (resource_update_method self) data)) ->
  steps (sends_only Q) (update self resource).
Proof.
  intros Qupd. unfold update. cbv zeta.
  sends_bind; [apply steps_lift, sends_only_refl|]. intros diff.
  apply steps_if; [|apply steps_ret, sends_only_refl].
  sends_bind; [sends_quiet|]. intros _.
  sends_bind; [apply steps_lift, sends_only_refl|]. intros before.
  sends_bind; [sends_quiet|]. intros _.
  apply steps_if; [|apply steps_ret, sends_only_refl].
  sends_bind; [apply steps_lift, sends_only_refl|]. intros rid.
  sends_bind; [apply api_query_sends, Qupd|]. intros _.
  sends_bind; [apply steps_lift, sends_only_refl|]. intros rid'.
  apply query_sends.
Qed.

Lemma absent_sends :
  (forall path, Q (api_request self path "DELETE" VNone)) ->
  steps (sends_only Q) (absent self).
Proof.
  intros Qdel. unfold absent.
  sends_bind; [apply query_sends|]. intros resource.
  sends_bind; [|intros _; sends_quiet].
  apply steps_if; [|apply steps_ret, sends_only_refl].
  sends_bind; [sends_quiet|]. intros _.
  sends_bind; [apply steps_lift, sends_only_refl|]. intros before.
  sends_bind; [sends_quiet|]. intros _.
  apply steps_if; [|apply steps_ret, sends_only_refl].
  sends_bind; [apply steps_lift, sends_only_refl|]. intros rid.
  sends_bind; [apply api_query_sends, Qdel|]. intros _.
  apply steps_ret, sends_only_refl.
Qed.

Lemma present_sends :
  (forall data, Q (api_request self (resource_path self) "POST" data)) ->
  (forall path data,
      Q (api_request self path (resource_update_method self) data)) ->
  steps (sends_only Q) (present self).
Proof.
  intros Qpost Qupd. unfold present.
  sends_bind; [apply query_sends|]. intros resource.
  sends_bind; [|intros r; sends_quiet].
  apply steps_if; [|apply update_sends, Qupd].
  sends_bind; [apply create_sends, Qpost|]. intros created.
  apply steps_if; [|apply steps_ret, sends_only_refl].
  sends_bind; [apply steps_lift, sends_only_refl|]. intros rid.
  apply query_sends.
Qed.

End Sends.

Lemma api_request_in_envelope self path method data :
  in_envelope self (api_request self path method data).
Proof.
  split; [reflexivity|]. split; [reflexivity|]. exists path. reflexivity.
Qed.

(** X5: every request that [present] or [absent] sends, whatever the
    remote answers, carries the bearer token of the run in its
    [Authorization] header, the fixed [User-Agent] and [Accept] headers
    and the configured timeout, and goes to a URL under the configured
    endpoint. *)
Theorem request_envelope self s :
  sends_only (in_envelope self) s (snd (present self s)) /\
  sends_only (in_envelope self) s (snd (absent self s)).
Proof.
  split.
  - apply present_sends; intros; apply api_request_in_envelope.
  - apply absent_sends; intros; apply api_request_in_envelope.
Qed.

(** X6: [absent] never creates or updates and [present] never deletes:
    whatever the remote answers, every request of [absent] is a GET or a
    DELETE, and every request of [present] is a GET, a POST to the
    collection path or a request with the update method. *)
Theorem request_methods self s :
  sends_only (fun rq => method rq = "GET" \/ method rq = "DELETE")
    s (snd (absent self s)) /\
  sends_only (fun rq =>
                method rq = "GET" \/
                (method rq = "POST" /\
                 url rq = api_endpoint (module self) ++ resource_path self) \/
                method rq = resource_update_method self)
    s (snd (present self s)).
Proof.
  split.
  - apply absent_sends; intros; cbn; auto.
  - apply present_sends; intros; cbn; auto.
Qed.

(** *** [query] *)

Lemma query_at_limit self rid s :
  query self rid s = query_rec (S 999) self rid s.
Proof. reflexivity. Qed.

Lemma query_rec_list depth self s :
  query_rec (S depth) self VNone s
  = (resources <- query_list self ;;
     items <- lift (Py.iter resources) ;;
     scan depth self items) s.
Proof.
  cbn [query_rec]. apply bind_ext; [reflexivity|]. intros resources t.
  apply bind_ext; [reflexivity|]. intros items.
  induction items as [|resource rest IH]; intros t'; [reflexivity|].
  cbn [scan]. apply bind_ext; [reflexivity|]. intros name u.
  destruct (Py.eq name _); [reflexivity | apply IH].
Qed.

Lemma query_rec_by_id depth self rid s :
  rid <> VNone ->
  query_rec (S depth) self rid s
  = (suffix <- lift (id_suffix rid) ;;
     resource <- api_query self (resource_path self ++ suffix) "GET" VNone ;;
     if Py.truthy resource
     then lift (Py.getitem resource (ressource_result_key_singular self))
     else ret (VDict [])) s.
Proof. destruct rid; [contradiction | reflexivity ..]. Qed.

Lemma api_query_first self path method data s :
  1 <= api_retries (module self) ->
  status (fst (fetch_url (world s) (api_request self path method data)))
  <> 429 ->
  api_query self path method data s
  = classify method path
      (Some (fst (fetch_url (world s) (api_request self path method data))))
      (after_first (api_request self path method data) s).
Proof.
  intros Hr Hs. unfold api_query. rewrite bind_run, api_loop_eq.
  unfold Py.range.
  destruct (Z.to_nat (api_retries (module self))) as [|m] eqn:E; [lia|].
  cbn [seq map]. rewrite retry_loop_cons. cbv zeta.
  cbn [world draws trace st_result].
  apply Z.eqb_neq in Hs. rewrite Hs. reflexivity.
Qed.

(** X7: a query by id sends its GET to [resource_path/<id>] (to the
    collection path itself when the id is the empty string).  When the
    first answer is 404 or 204 it returns the empty dict; when it is 200
    or 201 with a JSON object it returns the entry under the singular
    key, raises [KeyError] when a non-empty object has no such entry, and
    returns the empty dict for the empty object. *)
Theorem query_by_id self id s :
  1 <= api_retries (module self) ->
  let path :=
    resource_path self ++ (if String.eqb id "" then "" else "/" ++ id) in
  let req := api_request self path "GET" VNone in
  let resp := fst (fetch_url (world s) req) in
  let s1 := after_first req s in
  (status resp = 404 \/ status resp = 204 ->
   query self (VStr id) s = (Ret (VDict []), s1)) /\
  (status resp = 200 \/ status resp = 201 ->
   forall d,
     body resp = Some (VDict d) ->
     query self (VStr id) s
     = (match d with
        | [] => Ret (VDict [])
        | _ :: _ =>
            match Py.lookup (ressource_result_key_singular self) d with
            | Some r => Ret r
            | None => Raise (KeyError (ressource_result_key_singular self))
            end
        end, s1)).
Proof.
  intros Hr. cbv zeta.
  assert (E : id_suffix (VStr id)
              = Ok (if String.eqb id "" then "" else "/" ++ id)).
  { unfold id_suffix. cbn [Py.truthy].
    destruct (String.eqb id "") eqn:Ei; cbn [negb]; [|reflexivity].
    apply String.eqb_eq in Ei. subst id. reflexivity. }
  rewrite query_at_limit, query_rec_by_id by discriminate.
  rewrite E, bind_lift_ok.
  set (path := resource_path self
               ++ (if String.eqb id "" then "" else "/" ++ id)).
  split.
  - intros Hst. rewrite bind_run, api_query_first; [|exact Hr|].
    + unfold classify. destruct Hst as [-> | ->]; reflexivity.
    + destruct Hst as [-> | ->]; discriminate.
  - intros Hst d Hb. rewrite bind_run, api_query_first; [|exact Hr|].
    + unfold classify. rewrite Hb.
      destruct Hst as [-> | ->]; cbn [existsb Z.eqb Pos.eqb orb fst snd ret];
        (destruct d as [|kv d']; [reflexivity|]);
        cbn [Py.truthy Py.getitem];
        destruct (Py.lookup _ _); reflexivity.
    + destruct Hst as [-> | ->]; discriminate.
Qed.

(** X8: an id that is neither [None] nor a string cannot be queried:
    [query] raises [TypeError] before anything is sent.  So [update], out
    of check mode, of a resource whose id is such a value (an integer,
    say) sends its write request to [resource_path/<str(id)>] and, once
    that call has returned, raises [TypeError] instead of returning the
    resource. *)
Theorem query_needs_string_id self rid :
  rid <> VNone -> is_str rid = false -> Py.truthy rid = true ->
  (forall s, query self rid s = (Raise TypeError, s)) /\
  (forall resource s v s2,
      check_mode (module self) = false ->
      is_diff (update_data self) resource = Ok true ->
      Py.getitem resource (resource_key_id self) = Ok rid ->
      let s1 :=
        with_result
          (record_update match resource with VDict d => d | _ => [] end
             (update_data self) (st_result s)) s in
      api_query self (resource_path self ++ "/" ++ py_str rid)
        (resource_update_method self) (VDict (update_data self)) s1
      = (Ret v, s2) ->
      update self resource s = (Raise TypeError, s2) /\
      exists evs,
        trace s2 = (trace s ++ evs)%list /\ fetches evs <> []).
Proof.
  intros Hn Hs Ht.
  assert (Q : forall s, query self rid s = (Raise TypeError, s)).
  { intros s. rewrite query_at_limit, query_rec_by_id by exact Hn.
    unfold id_suffix. rewrite Ht.
    destruct rid; try discriminate; reflexivity. }
  split; [exact Q|].
  intros resource s v s2 Hc Hd Hg. cbv zeta. intros Hw.
  destruct (is_diff_true_dict _ _ Hd) as [before ->].
  split.
  - unfold update. cbv zeta. fold (update_data self).
    rewrite Hd, bind_lift_ok. cbv beta iota. unfold set_changed, set_diff.
    rewrite bind_modify. cbn [Py.dict_copy]. rewrite bind_lift_ok.
    rewrite bind_modify, Hc. cbn [negb]. rewrite Hg, bind_lift_ok.
    rewrite bind_run. unfold with_result, record_update in Hw.
    cbn [st_result changed payload diff_before diff_after vultr_api
         world draws trace].
    rewrite Hw. cbn [fst snd]. rewrite bind_lift_ok. apply Q.
  - match type of Hw with
    | api_query ?a ?p ?m ?d ?st = _ =>
        destruct (api_query_requests a p m d st) as (evs & Htr & _);
        pose proof (api_query_ret_sends a p m d st v) as Hsend
    end.
    rewrite Hw in Htr, Hsend. cbn [fst snd] in Htr, Hsend.
    exists evs. split; [exact Htr|]. apply Hsend; [reflexivity | exact Htr].
Qed.

Lemma scan_miss depth self :
  forall pre rest s,
    Forall (fun x => name_test self x = Ok false) pre ->
    scan depth self (pre ++ rest) s = scan depth self rest s.
Proof.
  induction pre as [|x pre IH]; intros rest s H; [reflexivity|].
  inversion H as [|? ? Hx Hpre]; subst. cbn [app scan].
  unfold name_test in Hx.
  destruct (Py.get x (resource_key_name self)) as [name|]; [|discriminate].
  injection Hx as Hx. rewrite bind_lift_ok, Hx. apply IH. exact Hpre.
Qed.

(** X9: in a query by name the first listed resource whose name field
    equals the name parameter wins, whatever follows it in the list, and
    when no listed resource has the name the query returns the empty dict
    (here for an adapter that needs no detail fetch). *)
Theorem query_first_match self s resources s1 items :
  resource_get_details self = false ->
  query_list self s = (Ret resources, s1) ->
  Py.iter resources = Ok items ->
  (forall pre r post,
      items = (pre ++ r :: post)%list ->
      Forall (fun x => name_test self x = Ok false) pre ->
      name_test self r = Ok true ->
      query self VNone s = (Ret r, s1)) /\
  (Forall (fun x => name_test self x = Ok false) items ->
   query self VNone s = (Ret (VDict []), s1)).
Proof.
  intros Hd Hl Hi.
  assert (E : query self VNone s = scan 999 self items s1).
  { rewrite query_at_limit, query_rec_list, bind_run, Hl. cbn [fst snd].
    rewrite Hi, bind_lift_ok. reflexivity. }
  split.
  - intros pre r post -> Hpre Hr. rewrite E, scan_miss by exact Hpre.
    cbn [scan]. unfold name_test in Hr.
    destruct (Py.get r (resource_key_name self)) as [name|]; [|discriminate].
    injection Hr as Hr. rewrite bind_lift_ok, Hr, Hd. reflexivity.
  - intros Hall. rewrite E.
    rewrite <- (app_nil_r items). rewrite scan_miss by exact Hall.
    reflexivity.
Qed.

Lemma scan_result depth self :
  resource_get_details self = false ->
  forall items s r s1,
    scan depth self items s = (Ret r, s1) ->
    s1 = s /\ (r = VDict [] \/ name_test self r = Ok true).
Proof.
  intros Hd. induction items as [|x items IH]; intros s r s1 H.
  - cbn in H. injection H as <- <-. auto.
  - cbn [scan] in H. unfold name_test.
    destruct (Py.get x (resource_key_name self)) as [name|] eqn:G.
    + rewrite bind_lift_ok in H.
      destruct (Py.eq name _) eqn:En.
      * rewrite Hd in H. cbn in H. injection H as <- <-.
        split; [reflexivity|]. right. rewrite G, En. reflexivity.
      * apply IH in H. exact H.
    + rewrite bind_lift_err in H. discriminate.
Qed.

Lemma query_by_name_result self s r s1 :
  resource_get_details self = false ->
  query self VNone s = (Ret r, s1) ->
  r = VDict [] \/ name_test self r = Ok true.
Proof.
  intros Hd H. rewrite query_at_limit, query_rec_list in H.
  apply bind_ret_inv in H. destruct H as (resources & _ & H).
  apply bind_ret_inv in H. destruct H as (items & _ & H).
  apply (scan_result 999 self Hd) in H. tauto.
Qed.

Lemma name_is_no_diff self r d :
  params_get (module self) (resource_key_name self) = VStr d ->
  name_test self r = Ok true ->
  is_diff [(resource_key_name self, VStr d)] r = Ok false.
Proof.
  intros Hp Ht. unfold name_test in Ht. rewrite Hp in Ht.
  destruct r as [| | | | |dd]; try discriminate.
  cbn [Py.get] in Ht. cbn [is_diff differs Py.getitem].
  destruct (Py.lookup (resource_key_name self) dd) as [n|];
    [|discriminate].
  injection Ht as Ht. rewrite Ht. reflexivity.
Qed.

Lemma name_keyed_present self d s r s1 :
  resource_get_details self = false ->
  resource_update_param_keys self = [resource_key_name self] ->
  params_get (module self) (resource_key_name self) = VStr d ->
  query self VNone s = (Ret r, s1) ->
  Py.truthy r = true ->
  present self s
  = get_result self r s1.
Proof.
  intros Hd Hk Hp Hq Ht.
  destruct (query_by_name_result self s r s1 Hd Hq) as [-> | Hn];
    [discriminate|].
  unfold present. rewrite bind_run, Hq. cbn [fst snd]. rewrite Ht.
  cbn [negb]. unfold update. cbv zeta. rewrite Hk.
  change (build_data (module self) [resource_key_name self])
    with [(resource_key_name self,
           params_get (module self) (resource_key_name self))].
  rewrite Hp, (name_is_no_diff self r d Hp Hn).
  rewrite bind_assoc, bind_lift_ok. cbv beta iota. rewrite bind_ret.
  reflexivity.
Qed.


(** *** [present] on a resource that is not there *)




(** *** The bodies and the recorded diff *)

Lemma keys_setitem d k v :
  map fst (Py.setitem d k v)
  = match Py.lookup k d with
    | Some _ => map fst d
    | None => (map fst d ++ [k])%list
    end.
Proof.
  induction d as [|[k0 v0] d IH]; cbn; [reflexivity|].
  destruct (String.eqb k k0) eqn:E; cbn.
  - apply String.eqb_eq in E. subst k0. reflexivity.
  - rewrite IH. destruct (Py.lookup k d); reflexivity.
Qed.

Lemma lookup_none_keys d k :
  Py.lookup k d = None <-> ~ In k (map fst d).
Proof.
  induction d as [|[k0 v0] d IH]; cbn; [tauto|].
  destruct (String.eqb k k0) eqn:E.
  - apply String.eqb_eq in E. subst k0. split; [discriminate | tauto].
  - apply String.eqb_neq in E. rewrite IH. split.
    + intros H [C | C]; [congruence | tauto].
    + tauto.
Qed.

Lemma build_data_keys m keys :
  forall acc,
    NoDup (map fst acc) ->
    let d := fold_left
               (fun data param => Py.setitem data param (params_get m param))
               keys acc in
    NoDup (map fst d) /\
    (forall k, In k (map fst d) <-> In k (map fst acc) \/ In k keys).
Proof.
  induction keys as [|p keys IH]; intros acc Hnd; cbn.
  - split; [exact Hnd | tauto].
  - destruct (IH (Py.setitem acc p (params_get m p))) as [H1 H2].
    { rewrite keys_setitem. destruct (Py.lookup p acc) eqn:E; [exact Hnd|].
      apply lookup_none_keys in E.
      apply NoDup_app; [exact Hnd | repeat constructor; intros [] |].
      intros x Hx [<- | []]. exact (E Hx). }
    split; [exact H1|]. intros k. rewrite H2, keys_setitem.
    destruct (Py.lookup p acc) eqn:E.
    + assert (In p (map fst acc)).
      { destruct (in_dec string_dec p (map fst acc)) as [I | N]; [exact I|].
        apply lookup_none_keys in N. congruence. }
      split; [tauto|]. intros [A | [<- | B]]; tauto.
    + rewrite in_app_iff. cbn. tauto.
Qed.

(** X13: the body that [create] and [update] build holds every listed
    parameter exactly once, whatever the list repeats, each with the value
    the play gives it, and with [None] when the play gives none; it holds
    nothing else. *)
Theorem body_of_params m keys :
  (forall k, In k keys ->
             Py.lookup k (build_data m keys) = Some (params_get m k)) /\
  (forall k, ~ In k keys -> Py.lookup k (build_data m keys) = None) /\
  NoDup (map fst (build_data m keys)) /\
  (forall k, In k keys -> Py.lookup k (params m) = None ->
             In (k, VNone) (build_data m keys)).
Proof.
  destruct (build_data_keys m keys [] (NoDup_nil _)) as [Hnd Hk].
  fold (build_data m keys) in Hnd, Hk.
  assert (L : forall k, In k keys ->
              Py.lookup k (build_data m keys) = Some (params_get m k))
    by (intros k; apply build_data_lookup).
  split; [exact L|]. split; [|split; [exact Hnd|]].
  - intros k Hn. apply lookup_none_keys. rewrite Hk. cbn. tauto.
  - intros k Hin Hp. specialize (L k Hin).
    assert (E : params_get m k = VNone) by (unfold params_get; rewrite Hp; reflexivity).
    rewrite E in L. clear - L.
    induction (build_data m keys) as [|[k0 v0] d IH]; cbn in L;
      [discriminate|].
    destruct (String.eqb k k0) eqn:E.
    + apply String.eqb_eq in E. subst k0. injection L as ->.
      left. reflexivity.
    + right. apply IH. exact L.
Qed.

Lemma lookup_update d e :
  NoDup (map fst e) ->
  forall k,
    Py.lookup k (Py.update d e)
    = match Py.lookup k e with
      | Some v => Some v
      | None => Py.lookup k d
      end.
Proof.
  unfold Py.update. revert d.
  induction e as [|[k0 v0] e IH]; intros d Hnd k; [reflexivity|].
  cbn [fold_left fst snd map] in *. inversion Hnd as [|? ? Hk0 Hnd']; subst.
  rewrite (IH _ Hnd'). cbn [Py.lookup].
  destruct (String.eqb k k0) eqn:E.
  - apply String.eqb_eq in E. subst k0.
    apply lookup_none_keys in Hk0. rewrite Hk0.
    apply lookup_setitem_same.
  - apply String.eqb_neq in E.
    rewrite lookup_setitem_other by exact E. reflexivity.
Qed.

Lemma update_report_diff self before s :
  is_diff (update_data self) (VDict before) = Ok true ->
  report (snd (update self (VDict before) s))
  = (true, before, Py.update before (update_data self)).
Proof.
  intros Hd. unfold update. cbv zeta. fold (update_data self).
  rewrite Hd, bind_lift_ok. cbv beta iota. unfold set_changed, set_diff.
  rewrite bind_modify. cbn [Py.dict_copy].
  rewrite bind_lift_ok, bind_modify.
  match goal with
  | |- report (snd (_ ?st)) = _ =>
      transitivity (report st);
        [exact (update_tail_same_report self (VDict before)
                  (update_data self) st) | reflexivity]
  end.
Qed.

(** X14: once [update] has found a difference, and whatever the write
    and the query after it do, [diff.before] is the resource and
    [diff.after] is the resource with every update parameter set to the
    value of the play: also to [None] for a parameter that the play does
    not set and that [is_diff] therefore did not compare. *)
Theorem update_diff_after self resource s :
  is_diff (update_data self) resource = Ok true ->
  exists before,
    resource = VDict before /\
    changed (st_result (snd (update self resource s))) = true /\
    diff_before (st_result (snd (update self resource s))) = before /\
    (forall k,
        In k (resource_update_param_keys self) ->
        Py.lookup k (diff_after (st_result (snd (update self resource s))))
        = Some (params_get (module self) k)) /\
    (forall k,
        ~ In k (resource_update_param_keys self) ->
        Py.lookup k (diff_after (st_result (snd (update self resource s))))
        = Py.lookup k before).
Proof.
  intros Hd. destruct (is_diff_true_dict _ _ Hd) as [before ->].
  exists before. split; [reflexivity|].
  pose proof (update_report_diff self before s Hd) as Hr.
  unfold report in Hr. injection Hr as Hc Hb Ha.
  split; [exact Hc|]. split; [exact Hb|].
  destruct (build_data_keys (module self) (resource_update_param_keys self)
              [] (NoDup_nil _)) as [Hnd Hk].
  fold (build_data (module self) (resource_update_param_keys self)) in Hnd, Hk.
  fold (update_data self) in Hnd, Hk.
  split; intros k Hin; rewrite Ha, (lookup_update _ _ Hnd).
  - unfold update_data. rewrite build_data_lookup by exact Hin. reflexivity.
  - assert (E : Py.lookup k (update_data self) = None).
    { apply lookup_none_keys. rewrite Hk. cbn. tauto. }
    rewrite E. reflexivity.
Qed.

(** *** More on [is_diff] *)

Lemma grown_lookup d d' :
  grown_resource d d' ->
  forall k,
    match Py.lookup k d with
    | Some f => exists f', Py.lookup k d' = Some f' /\ grown f f'
    | None => Py.lookup k d' = None
    end.
Proof.
  induction 1 as [|[k0 f0] [k0' f0'] d d' [Hk Hg] Hrest IH]; intros k;
    [reflexivity|].
  cbn in Hk, Hg. subst k0'. cbn. destruct (String.eqb k k0); [eauto | apply IH].
Qed.

Lemma grown_contains x f f' :
  grown f f' -> Py.contains x f = Ok true -> Py.contains x f' = Ok true.
Proof.
  intros [-> | (l & extra & -> & ->)] H; [exact H|].
  cbn in *. injection H as H. rewrite existsb_app, H. reflexivity.
Qed.

Lemma grown_differs_list key l d d' :
  grown_resource d d' ->
  differs key (VList l) (VDict d) = Ok false ->
  differs key (VList l) (VDict d') = Ok false.
Proof.
  intros Hg. pose proof (grown_lookup d d' Hg key) as Hl.
  induction l as [|x l IH]; intros H; [reflexivity|].
  rewrite differs_list in H. rewrite differs_list.
  cbn [Py.getitem] in *.
  destruct (Py.lookup key d) as [f|]; [|discriminate].
  destruct Hl as (f' & E & Hgf). rewrite E.
  destruct (Py.contains x f) as [[|]|] eqn:C; try discriminate.
  rewrite (grown_contains x f f' Hgf C). apply IH. exact H.
Qed.

Lemma grown_differs key v d d' :
  grown_resource d d' ->
  differs key v (VDict d) = Ok false ->
  differs key v (VDict d') = Ok false.
Proof.
  intros Hg. pose proof (grown_lookup d d' Hg key) as Hl.
  assert (Scalar : (forall l, v <> VList l) ->
            match Py.getitem (VDict d) key with
            | Ok field => Ok (negb (Py.eq field v))
            | Err e => Err e
            end = Ok false ->
            match Py.getitem (VDict d') key with
            | Ok field => Ok (negb (Py.eq field v))
            | Err e => Err e
            end = Ok false).
  { intros Hnl. cbn [Py.getitem].
    destruct (Py.lookup key d) as [f|]; [|discriminate].
    destruct Hl as (f' & -> & [-> | (l & extra & -> & ->)]); [auto|].
    intros H. injection H as H. apply negb_false_iff in H.
    destruct v; try discriminate. exfalso. eapply Hnl. reflexivity. }
  destruct v as [| b | z | s | l | dd].
  - auto.
  - apply Scalar. intros; discriminate.
  - apply Scalar. intros; discriminate.
  - apply Scalar. intros; discriminate.
  - apply grown_differs_list. exact Hg.
  - apply Scalar. intros; discriminate.
Qed.

(** X15: the containment test is one-sided: when [is_diff] has found no
    difference, it finds none either after lists of the remote resource
    have gained elements, so values that only the remote side adds never
    cause an update. *)
Theorem is_diff_ignores_remote_extras data d d' :
  is_diff data (VDict d) = Ok false ->
  grown_resource d d' ->
  is_diff data (VDict d') = Ok false.
Proof.
  intros H Hg. induction data as [|[key v] data IH]; [reflexivity|].
  cbn in *. destruct (differs key v (VDict d)) as [[|]|] eqn:D;
    try discriminate.
  rewrite (grown_differs key v d d' Hg D). apply IH. exact H.
Qed.

Lemma is_diff_unmanaged data resource :
  (forall k v, In (k, v) data -> v = VNone \/ v = VList []) ->
  is_diff data resource = Ok false.
Proof.
  induction data as [|[key v] data IH]; intros H; [reflexivity|].
  cbn. destruct (H key v (or_introl Logic.eq_refl)) as [-> | ->]; cbn;
    apply IH; intros k w Hin; apply (H k w); right; exact Hin.
Qed.

(** X16: a parameter that the play leaves at [None] (or gives as an empty
    list) is not managed: when that is so for every update parameter,
    [update] returns whatever it is given, sends nothing and leaves
    [changed] and the diff alone, without so much as looking at the
    resource. *)
Theorem update_unmanaged self :
  (forall k, In k (resource_update_param_keys self) ->
             params_get (module self) k = VNone \/
             params_get (module self) k = VList []) ->
  forall resource s, update self resource s = (Ret resource, s).
Proof.
  intros H resource s. unfold update. cbv zeta.
  rewrite is_diff_unmanaged; [reflexivity|].
  intros k v Hin. apply build_data_in in Hin. destruct Hin as [Hk ->].
  apply H. exact Hk.
Qed.

(** X17: [is_diff] is decided by the first key of the body that differs
    or cannot be compared: it answers true as soon as a key differs,
    without looking at the keys after it (so a later key that the
    resource lacks goes unnoticed), and it raises what the first key that
    cannot be compared raises. *)
Theorem is_diff_first_decides pre key v rest resource :
  Forall (fun kv => differs (fst kv) (snd kv) resource = Ok false) pre ->
  (differs key v resource = Ok true ->
   is_diff (pre ++ (key, v) :: rest)%list resource = Ok true) /\
  (forall e, differs key v resource = Err e ->
             is_diff (pre ++ (key, v) :: rest)%list resource = Err e) /\
  (differs key v resource = Ok false ->
   is_diff (pre ++ (key, v) :: rest)%list resource = is_diff rest resource).
Proof.
  intros Hpre.
  assert (E : is_diff (pre ++ (key, v) :: rest)%list resource
              = is_diff ((key, v) :: rest) resource).
  { induction Hpre as [|[k0 v0] pre H0 Hpre IH]; [reflexivity|].
    cbn [app is_diff]. cbn [fst snd] in H0. rewrite H0. exact IH. }
  rewrite E. cbn [is_diff].
  split; [|split]; [intros -> | intros e -> | intros ->]; reflexivity.
Qed.

(** *** The ends of a run *)

Lemma bind_never_returns {A B} (c : M A) (k : A -> M B) s :
  (forall a t b, fst (k a t) <> Ret b) ->
  forall b, fst (bind c k s) <> Ret b.
Proof.
  intros Hk b. unfold bind.
  destruct (c s) as [[a | e | msg info | r] s1]; cbn; try discriminate.
  apply Hk.
Qed.

Lemma get_result_never_returns {A} self resource t (b : A) :
  fst (@get_result R A self resource t) <> Ret b.
Proof. rewrite get_result_eq. discriminate. Qed.

(** X18: [present], [absent] and the [main] of [dns_domain] never return
    to their caller: every run ends in [exit_json], in [fail_json] or in
    an exception. *)
Theorem runs_never_return s v :
  (forall self, fst (present self s) <> Ret v) /\
  (forall self, fst (absent self s) <> Ret v) /\
  (forall m, fst (main m s) <> Ret v).
Proof.
  assert (P : forall self t, fst (present self t) <> Ret v).
  { intros self t. unfold present. apply bind_never_returns.
    intros r t' b. apply bind_never_returns.
    intros r' t'' b'. apply get_result_never_returns. }
  assert (A : forall self t, fst (absent self t) <> Ret v).
  { intros self t. unfold absent. apply bind_never_returns.
    intros r t' b. apply bind_never_returns.
    intros r' t'' b'. apply get_result_never_returns. }
  split; [intros; apply P|]. split; [intros; apply A|].
  intros m. unfold main. cbv zeta.
  destruct (Py.eq _ _); [apply A | apply P].
Qed.


(** *** The [dns_domain] module *)

Lemma create_branch_sends Q self :
  (forall path, Q (api_request self path "GET" VNone)) ->
  (forall data, Q (api_request self (resource_path self) "POST" data)) ->
  steps (sends_only Q)
    (resource <-
       (resource <- create self ;;
        if Py.truthy resource && resource_get_details self
        then
          rid <- lift (Py.getitem resource (resource_key_id self)) ;;
          query self rid
        else ret resource) ;;
     @get_result R unit self resource).
Proof.
  intros Qget Qpost.
  apply (steps_bind _ (sends_only_trans Q)).
  - apply (steps_bind _ (sends_only_trans Q));
      [apply create_sends; assumption|].
    intros created. apply steps_if; [|apply steps_ret, sends_only_refl].
    apply (steps_bind _ (sends_only_trans Q));
      [apply steps_lift, sends_only_refl|].
    intros rid. apply query_sends. exact Qget.
  - intros r. apply sends_only_same_trace. intros t. reflexivity.
Qed.

(** X20: [dns_domain] never changes a domain that exists: with the
    domain given as a string, every request that [main] sends is a GET, a
    POST or a DELETE, and no PATCH is ever sent, whatever the remote
    answers and whatever server IP the play asks for. *)
Theorem dns_domain_never_patches m d s :
  params_get m "domain" = VStr d ->
  sends_only (fun rq => method rq = "GET" \/ method rq = "POST" \/
                        method rq = "DELETE")
    s (snd (main m s)).
Proof.
  intros Hp. unfold main. cbv zeta.
  set (Q := fun rq => method rq = "GET" \/ method rq = "POST" \/
                      method rq = "DELETE").
  destruct (Py.eq _ _).
  - apply absent_sends; intros; unfold Q; cbn; auto.
  - set (self := dns_domain_vultr m).
    assert (Qget : forall path, Q (api_request self path "GET" VNone))
      by (intros; unfold Q; cbn; auto).
    pose proof (query_sends Q self Qget VNone s) as Hq.
    destruct (query self VNone s) as [o s1] eqn:Eq. cbn [snd] in Hq.
    destruct o as [r | e | msg info | res].
    + destruct (Py.truthy r) eqn:Ht.
      * rewrite (name_keyed_present self d s r s1 Logic.eq_refl
                   Logic.eq_refl Hp Eq Ht).
        rewrite get_result_eq. cbn [snd].
        destruct Hq as (evs & Htr & Hall). exists evs. split; [|exact Hall].
        exact Htr.
      * unfold present. rewrite bind_run, Eq. cbn [fst snd]. rewrite Ht.
        cbn [negb]. eapply sends_only_trans; [exact Hq|].
        apply create_branch_sends; [exact Qget|].
        intros; unfold Q; cbn; auto.
    + unfold present. rewrite bind_run, Eq. exact Hq.
    + unfold present. rewrite bind_run, Eq. exact Hq.
    + unfold present. rewrite bind_run, Eq. exact Hq.
Qed.

End Further.

(** *** Runs for the further properties *)

(** With no retry allowed nothing is sent and the run ends in
    [UnboundLocalError]. *)
Lemma no_retries_no_call_witness :
  fst (present (R := zone_remote) (set_api_retries 0 (dns_domain false))
         (init_state (R := zone_remote)
            (set_api_retries 0 (dns_domain false)) Absent 0))
  = Raise (UnboundLocalError "info").
Proof.
  apply (no_retries_no_call (R := zone_remote)
           (set_api_retries 0 (dns_domain false))).
  cbn. lia.
Defined.



(** The stored zone, queried by its id. *)
Lemma query_by_id_witness :
  fst (query (R := zone_remote) (dns_domain false) (VStr "example.com")
         (init_state (R := zone_remote) (dns_domain false) Fresh 0))
  = Ret (VDict (zone_record "10.0.0.1")).
Proof.
  rewrite (proj2 (query_by_id (R := zone_remote) (dns_domain false)
                    "example.com"
                    (init_state (R := zone_remote) (dns_domain false)
                       Fresh 0)
                    ltac:(cbn; lia))
             (or_introl Logic.eq_refl)
             [("domain", VDict (zone_record "10.0.0.1"))] Logic.eq_refl).
  reflexivity.
Defined.

(** A numeric id. *)
Lemma query_needs_string_id_witness :
  query (R := zone_remote) (dns_domain false) (VInt 7)
    (init_state (R := zone_remote) (dns_domain false) Fresh 0)
  = (Raise TypeError,
     init_state (R := zone_remote) (dns_domain false) Fresh 0).
Proof.
  apply (query_needs_string_id (R := zone_remote) (dns_domain false)
           (VInt 7)); [discriminate | reflexivity | reflexivity].
Defined.

(** The list of the service holds the zone. *)
Lemma query_first_match_witness :
  query (R := zone_remote) (dns_domain false) VNone
    (init_state (R := zone_remote) (dns_domain false) Stale 0)
  = (Ret (VDict (zone_record "10.9.9.9")),
     snd (query_list (R := zone_remote) (dns_domain false)
            (init_state (R := zone_remote) (dns_domain false) Stale 0))).
Proof.
  refine (proj1 (query_first_match (R := zone_remote) (dns_domain false)
                   (init_state (R := zone_remote) (dns_domain false) Stale 0)
                   (VList [VDict (zone_record "10.9.9.9")])
                   (snd (query_list (R := zone_remote) (dns_domain false)
                           (init_state (R := zone_remote) (dns_domain false)
                              Stale 0)))
                   [VDict (zone_record "10.9.9.9")]
                   Logic.eq_refl _ Logic.eq_refl)
            [] (VDict (zone_record "10.9.9.9")) [] Logic.eq_refl
            (Forall_nil _) Logic.eq_refl).
  vm_compute. reflexivity.
Defined.




(** The diff of the update of a stale zone. *)
Lemma update_diff_after_witness :
  exists before,
    VDict (zone_record "10.9.9.9") = VDict before /\
    changed (st_result
               (snd (update (R := zone_remote) (dns_zone false)
                       (VDict (zone_record "10.9.9.9"))
                       (init_state (R := zone_remote) (dns_zone false)
                          Stale 0)))) = true.
Proof.
  destruct (update_diff_after (R := zone_remote) (dns_zone false)
              (VDict (zone_record "10.9.9.9"))
              (init_state (R := zone_remote) (dns_zone false) Stale 0)
              Logic.eq_refl)
    as (before & E & Hc & _).
  exists before. split; [exact E | exact Hc].
Defined.

(** A tag that only the remote side has. *)
Lemma is_diff_ignores_remote_extras_witness :
  is_diff [("tags", VList [VStr "a"; VStr "b"])]
          (VDict [("tags", VList [VStr "a"; VStr "b"; VStr "c"])])
  = Ok false.
Proof.
  apply (is_diff_ignores_remote_extras
           [("tags", VList [VStr "a"; VStr "b"])]
           [("tags", VList [VStr "a"; VStr "b"])]
           [("tags", VList [VStr "a"; VStr "b"; VStr "c"])]).
  - reflexivity.
  - constructor; [|constructor]. split; [reflexivity|]. right.
    exists [VStr "a"; VStr "b"], [VStr "c"]. split; reflexivity.
Defined.

(** A parameter that the play does not set. *)
Lemma update_unmanaged_witness :
  update (R := zone_remote) dns_sec (VInt 3)
    (init_state (R := zone_remote) dns_sec Stale 0)
  = (Ret (VInt 3), init_state (R := zone_remote) dns_sec Stale 0).
Proof.
  apply (update_unmanaged (R := zone_remote) dns_sec).
  intros k [<- | []]. left. reflexivity.
Defined.

(** The IP differs; the key after it is not looked at. *)
Lemma is_diff_first_decides_witness :
  is_diff ([("domain", VStr "example.com")]
           ++ ("ip", VStr "10.0.0.1") :: [("missing", VInt 1)])%list
          (VDict (zone_record "10.9.9.9"))
  = Ok true.
Proof.
  apply (is_diff_first_decides [("domain", VStr "example.com")]
           "ip" (VStr "10.0.0.1") [("missing", VInt 1)]
           (VDict (zone_record "10.9.9.9"))).
  - constructor; [reflexivity | constructor].
  - reflexivity.
Defined.


(** The requests of a run of [dns_domain]. *)
Lemma dns_domain_never_patches_witness :
  sends_only (R := zone_remote)
    (fun rq => method rq = "GET" \/ method rq = "POST" \/
               method rq = "DELETE")
    (init_state (R := zone_remote) (dns_domain false) Stale 0)
    (snd (main (R := zone_remote) (dns_module "secret" false)
            (init_state (R := zone_remote) (dns_domain false) Stale 0))).
Proof.
  apply (dns_domain_never_patches (R := zone_remote)
           (dns_module "secret" false) "example.com").
  reflexivity.
Defined.
